(** * The orchestration core of AGENTTA

    A shallow embedding of [src/core/mcp.py], [src/core/event_bus.py] and
    [src/core/shared_context.py]: the event record, the publish/subscribe bus,
    the shared context store and the Master Control Program that ties them
    together, followed by the properties the specification states about them
    and by further properties of the three modules.

    Python objects are mutable; a method that changes its receiver, prints or
    reads the clock is a computation that takes the receiver and the
    surrounding world and gives both back, together with either a value or the
    exception that was raised.  The state reached when an exception is raised
    is kept, as it is in Python.  A method that only reads is a function of
    its receiver.  The lock of the store is not modelled: one method runs at a
    time. *)

From stdpp Require Import base list strings pretty.
From Stdlib Require Import ZArith Lia.

Set Warnings "-register-all,-abstract-large-number".
Set Default Proof Using "Type".

(** ** Python values *)

(** The exception classes that occur in the core.  Every exception of the
    model is an instance of [Exception]; [KeyboardInterrupt], [SystemExit] and
    task cancellation, which derive from [BaseException] only and are not
    errors, are outside the model. *)
Inductive exn_class :=
| ValueError
| TypeError
| RuntimeError
| RecursionError
| JSONDecodeError
| UserError (name : string).

Record exn := Exn { exn_cls : exn_class; exn_msg : string }.

(** A float, named by its bit pattern (the 64 bits of a double, the infinities
    and the NaNs included); no arithmetic is done on it. *)
Definition pyfloat := Z.
Bind Scope Z_scope with pyfloat.

(** The values that travel through the core.  Dictionaries keep their
    insertion order and have string keys, as every [Dict[str, Any]] of the
    source; a string is given by the bytes of its UTF-8 form, a lone
    surrogate, which a [str] may hold, by the three bytes that form gives its
    code point.  [VObj] is any other object, known by its class name, by what
    [str] gives for it and by whether it carries a [__dict__] (an instance of
    a class written in Python does, a set or a date does not). *)
Inductive pyval :=
| VNone
| VBool (b : bool)
| VInt (z : Z)
| VFloat (f : pyfloat)
| VStr (s : string)
| VList (xs : list pyval)
| VTuple (xs : list pyval)
| VDict (kvs : list (string * pyval))
| VExc (e : exn)
| VObj (cls repr : string) (has_dict : bool).

(** [str(e)] for an exception built from one message. *)
Definition str_exn (e : exn) : string := exn_msg e.

(** [isinstance(v, dict)] *)
Definition isinstance_dict (v : pyval) : bool :=
  match v with VDict _ => true | _ => false end.

(** ** Dictionaries: insertion-ordered association lists *)

Section dict.
Context {K V : Type} `{EqDecision K}.

(** [d.get(k)] *)
Fixpoint dict_get (k : K) (d : list (K * V)) : option V :=
  match d with
  | [] => None
  | (k', v) :: d' => if decide (k = k') then Some v else dict_get k d'
  end.

(** [k in d] *)
Definition dict_in (k : K) (d : list (K * V)) : bool :=
  match dict_get k d with Some _ => true | None => false end.

(** [d[k] = v]: an existing key keeps its place, a new one goes last. *)
Fixpoint dict_set (k : K) (v : V) (d : list (K * V)) : list (K * V) :=
  match d with
  | [] => [(k, v)]
  | (k', v') :: d' =>
      if decide (k = k') then (k', v) :: d' else (k', v') :: dict_set k v d'
  end.

(** [d.update(new)]: the pairs of [new] are assigned in order. *)
Definition dict_update (d new : list (K * V)) : list (K * V) :=
  fold_left (fun acc kv => dict_set kv.1 kv.2 acc) new d.

(** [d.pop(k)] on a present key, as far as the remaining dict goes. *)
Fixpoint dict_remove (k : K) (d : list (K * V)) : list (K * V) :=
  match d with
  | [] => []
  | (k', v) :: d' => if decide (k = k') then d' else (k', v) :: dict_remove k d'
  end.

(** [list(d.keys())] *)
Definition dict_keys (d : list (K * V)) : list K := d.*1.

(** The dict a sequence of pairs builds ([dict(pairs)]). *)
Definition dict_of_pairs (kvs : list (K * V)) : list (K * V) :=
  dict_update [] kvs.
End dict.

(** ** Slices *)

(** [l[i:]] for any integer [i]: a negative [i] counts from the end and is
    clamped at the start of the list. *)
Definition slice_from {A} (i : Z) (l : list A) : list A :=
  if (i <? 0)%Z
  then drop (Z.to_nat (Z.of_nat (length l) + i)) l
  else drop (Z.to_nat i) l.

(** [len(l)] as a Python integer. *)
Definition len {A} (l : list A) : Z := Z.of_nat (length l).

(** ** Events (the [SystemEvent] dataclass of mcp.py) *)

Inductive AgentType :=
| LA_SECRETARIA   (* Email Intelligence *)
| EL_CALENDISTA   (* Deadline Management *)
| LA_ARCHIVISTA   (* Document Organization *)
| EL_ESTRATEGA.   (* Process Learning *)

#[global] Instance AgentType_eq_dec : EqDecision AgentType.
Proof. solve_decision. Defined.

(** [agent_type.name] *)
Definition AgentType_name (t : AgentType) : string :=
  match t with
  | LA_SECRETARIA => "LA_SECRETARIA"
  | EL_CALENDISTA => "EL_CALENDISTA"
  | LA_ARCHIVISTA => "LA_ARCHIVISTA"
  | EL_ESTRATEGA => "EL_ESTRATEGA"
  end.

Record SystemEvent := mkSystemEvent {
  type : string;
  payload : pyval;
  timestamp : pyfloat;
  agent_origin : option AgentType;
  priority : Z
}.

Inductive result (A : Type) :=
| Ok (a : A)
| Raise (e : exn).
Arguments Ok {A} a.
Arguments Raise {A} e.

(** [SystemEvent(type, payload, timestamp, agent_origin, priority)]: the
    generated [__init__] stores the fields and [__post_init__] validates them.
    The caller passes every field ([timestamp] defaults to [time.time()],
    [agent_origin] to [None], [priority] to 5). *)
Definition SystemEvent_new (type : string) (payload : pyval) (timestamp : pyfloat)
    (agent_origin : option AgentType) (priority : Z) : result SystemEvent :=
  if bool_decide (type = "") then
    Raise (Exn ValueError "Event type cannot be empty")
  else if negb (isinstance_dict payload) then
    Raise (Exn ValueError "Event payload must be a dictionary")
  else if negb ((1 <=? priority)%Z && (priority <=? 10)%Z) then
    Raise (Exn ValueError "Priority must be between 1 and 10")
  else
    Ok (mkSystemEvent type payload timestamp agent_origin priority).

(** What a bus carries: the orchestrator publishes the event object itself,
    other publishers any value. *)
Inductive Payload :=
| PEvent (e : SystemEvent)
| PValue (v : pyval).

(** ** The world around the objects, and computations in it *)

Section world.
Context {Ext : Type}.

(** A subscriber: a function, or a coroutine function whose body runs only
    when the event loop runs the task made from it.  It acts on state of its
    own, [Ext]; it does not hold the bus or the store. *)
Record Callable := mkCallable {
  iscoroutinefunction : bool;
  call : Payload -> Ext -> Ext * result unit
}.

Record World := mkWorld {
  ext : Ext;                                  (* what subscribers act on *)
  loop : option (list (Callable * Payload));  (* tasks of the running loop *)
  stdout : list string;                       (* lines printed so far *)
  clock : nat                                 (* readings of the clock so far *)
}.

(** A method with receiver of type [Self]. *)
Definition M (Self A : Type) : Type := Self -> World -> Self * World * result A.

Definition ret {Self A} (a : A) : M Self A := fun s w => (s, w, Ok a).

Definition bind {Self A B} (m : M Self A) (k : A -> M Self B) : M Self B :=
  fun s w =>
    match m s w with
    | (s', w', Ok a) => k a s' w'
    | (s', w', Raise e) => (s', w', Raise e)
    end.

Definition raise {Self A} (e : exn) : M Self A := fun s w => (s, w, Raise e).

(** [try: m except <classes selected by catches> as e: h e] *)
Definition try_except {Self A} (m : M Self A) (catches : exn -> bool)
    (h : exn -> M Self A) : M Self A :=
  fun s w =>
    match m s w with
    | (s', w', Raise e) => if catches e then h e s' w' else (s', w', Raise e)
    | r => r
    end.

Definition get_self {Self} : M Self Self := fun s w => (s, w, Ok s).
Definition set_self {Self} (s' : Self) : M Self unit := fun _ w => (s', w, Ok tt).

(** A call of a method of the attribute reached by [proj]. *)
Definition on_attr {Self T A} (proj : Self -> T) (upd : T -> Self -> Self)
    (m : M T A) : M Self A :=
  fun s w =>
    match m (proj s) w with
    | (t', w', r) => (upd t' s, w', r)
    end.

(** A call of a function that touches neither the receiver nor the world. *)
Definition pure_call {Self A} (r : result A) : M Self A := fun s w => (s, w, r).

(** [print(line)] *)
Definition print {Self} (line : string) : M Self unit :=
  fun s w => (s, mkWorld (ext w) (loop w) (stdout w ++ [line]) (clock w), Ok tt).

(** [datetime.now().isoformat()], as the number of the reading. *)
Definition datetime_now {Self} : M Self nat :=
  fun s w => (s, mkWorld (ext w) (loop w) (stdout w) (S (clock w)), Ok (clock w)).

(** [subscriber(payload)] for a plain function. *)
Definition call_sync {Self} (f : Callable) (p : Payload) : M Self unit :=
  fun s w =>
    match call f p (ext w) with
    | (x', r) => (s, mkWorld x' (loop w) (stdout w) (clock w), r)
    end.

(** [asyncio.create_task(subscriber(payload))]: the coroutine is handed to
    the running loop, and there must be one. *)
Definition create_task {Self} (f : Callable) (p : Payload) : M Self unit :=
  fun s w =>
    match loop w with
    | Some tasks =>
        (s, mkWorld (ext w) (Some (tasks ++ [(f, p)])) (stdout w) (clock w), Ok tt)
    | None => (s, w, Raise (Exn RuntimeError "no running event loop"))
    end.

(** [for x in l: body x] *)
Fixpoint for_each {Self B} (l : list B) (body : B -> M Self unit) : M Self unit :=
  match l with
  | [] => ret tt
  | x :: l' => bind (body x) (fun _ => for_each l' body)
  end.
End world.

Arguments Callable : clear implicits.
Arguments World : clear implicits.
Arguments M : clear implicits.

Declare Scope py_scope.
Delimit Scope py_scope with py.
Notation "x <- m ;; k" := (bind m (fun x => k))
  (at level 100, m at next level, right associativity) : py_scope.
Notation "m ;; k" := (bind m (fun _ => k))
  (at level 100, right associativity) : py_scope.

(** [except Exception] *)
Definition any_Exception (e : exn) : bool := true.

(** [except json.JSONDecodeError] *)
Definition is_JSONDecodeError (e : exn) : bool :=
  match exn_cls e with JSONDecodeError => true | _ => false end.

(** [except ValueError]; [json.JSONDecodeError] derives from [ValueError],
    and a class of the program's own is taken not to. *)
Definition is_ValueError (e : exn) : bool :=
  match exn_cls e with ValueError | JSONDecodeError => true | _ => false end.

(** [l.remove(x)]: the first element equal to [x] goes, the others keep their
    order; [None] when no element is equal to [x], where Python raises a
    [ValueError].  [same y x] is [y == x]. *)
Fixpoint list_remove {A} (same : A -> A -> bool) (x : A) (l : list A)
    : option (list A) :=
  match l with
  | [] => None
  | y :: l' =>
      if same y x then Some l'
      else match list_remove same x l' with
           | Some rest => Some (y :: rest)
           | None => None
           end
  end.

(** [sum(ns)] *)
Definition sum (ns : list Z) : Z := fold_left Z.add ns 0%Z.

Section coroutines.
Context {Ext : Type}.

(** [acc = init; for x in l: acc = body acc x], with [acc] as the result. *)
Fixpoint for_each_from {Self A B} (acc : A) (l : list B)
    (body : A -> B -> M Ext Self A) : M Ext Self A :=
  match l with
  | [] => ret acc
  | x :: l' => bind (body acc x) (fun acc' => for_each_from acc' l' body)
  end.

(** The loop runs the task made from a coroutine: its body acts on the state
    of the subscribers, and what it returns or raises stays in the task. *)
Definition run_task (x : Ext) (t : Callable Ext * Payload) : Ext :=
  (call t.1 t.2 x).1.

(** [await asyncio.gather] over the coroutines, with
    [return_exceptions=True], its list of results dropped.  The caller waits
    until the loop has run the coroutines; the loop takes what is ready in
    the order it became ready, so the tasks it was handed before have their
    turn first, then the coroutines in the order given.  A body runs in one
    piece (it is a function of the state of the subscribers), and an
    exception it raises is a result of the gathering, raised to nobody.
    Awaiting needs a running loop. *)
Definition await_gather {Self} (coroutines : list (Callable Ext * Payload))
    : M Ext Self unit :=
  fun s w =>
    match loop w with
    | Some tasks =>
        (s,
         mkWorld (fold_left run_task (tasks ++ coroutines) (ext w)) (Some [])
           (stdout w) (clock w),
         Ok tt)
    | None => (s, w, Raise (Exn RuntimeError "no running event loop"))
    end.

(** [await] in a coroutine that the loop runs, on results that are not
    there yet: the coroutine waits, and the loop runs the tasks it was
    handed before, each in one piece, until the results are there.  A
    coroutine runs in a loop; in a world without one there is nothing to
    wait for. *)
Definition await {Self A} (results : A) : M Ext Self A :=
  fun s w =>
    match loop w with
    | Some tasks =>
        (s, mkWorld (fold_left run_task tasks (ext w)) (Some []) (stdout w) (clock w),
         Ok results)
    | None => (s, w, Ok results)
    end.
End coroutines.

(** ** The [json] module of the standard library

    [json.dumps] and [json.loads] are not code of this repository.  A text is
    represented by what [json.loads] makes of it: the document it denotes, or
    the error the decoder raises on it.  The two conversions between Python
    values and documents follow the tables of the library's documentation,
    and its encoder and decoder work under the limits of the interpreter. *)

Module json.

Inductive doc :=
| JNull
| JBool (b : bool)
| JInt (z : Z)
| JFloat (f : pyfloat)
| JString (s : string)
| JArray (xs : list doc)
| JObject (members : list (string * doc)).

Inductive text :=
| Document (d : doc)
    (* a text that is valid JSON and that the decoder reads *)
| Malformed (s : string) (why : string)
    (* a text that is not JSON, and what the decoder says of it *)
| Refused (s : string) (valid : bool) (e : exn).
    (* a text, JSON or not, on which the decoder gives up with an error of
       another class: a [RecursionError] on nesting deeper than it has room
       for, a [ValueError] on an integer of more digits than the interpreter
       converts *)

(** Whether the text is valid JSON. *)
Definition valid (t : text) : bool :=
  match t with
  | Document _ => true
  | Malformed _ _ => false
  | Refused _ valid _ => valid
  end.

(** The limits of the interpreter that the encoder meets: the number of
    decimal digits up to which an integer is converted to text
    ([sys.get_int_max_str_digits()], 4300 unless set otherwise, 0 for no
    limit), and the number of levels of nesting there is room for on the
    stack at the call. *)
Record limits := mkLimits {
  max_str_digits : Z;
  room : nat
}.

(** Whether the interpreter converts [z] to text. *)
Definition digits_ok (lim : limits) (z : Z) : bool :=
  (max_str_digits lim =? 0)%Z || (Z.abs z <? 10 ^ max_str_digits lim)%Z.

(** The NaNs among the floats: all exponent bits set, and some other bit of
    the fraction.  The one that [float('nan')] gives is [nan]. *)
Definition is_nan (f : pyfloat) : bool :=
  (Z.land (Z.shiftr f 52) 2047 =? 2047)%Z
  && negb (Z.land f (2 ^ 52 - 1) =? 0)%Z.

Definition nan : pyfloat := 9221120237041090560.
Arguments digits_ok : simpl never.
Arguments is_nan : simpl never.

(** The first two bytes of a high surrogate (U+D800 to U+DBFF) and of a low
    one (U+DC00 to U+DFFF). *)
Definition is_high (a b : Ascii.ascii) : bool :=
  (Ascii.N_of_ascii a =? 237)%N
  && (160 <=? Ascii.N_of_ascii b)%N && (Ascii.N_of_ascii b <=? 175)%N.

Definition is_low (a b : Ascii.ascii) : bool :=
  (Ascii.N_of_ascii a =? 237)%N
  && (176 <=? Ascii.N_of_ascii b)%N && (Ascii.N_of_ascii b <=? 191)%N.

(** The four bytes of the character that a high surrogate with last bytes
    [b c] and a low one with last bytes [e f] stand for as a pair. *)
Definition joined (b c e f : Ascii.ascii) : string :=
  let hi := (N.land (Ascii.N_of_ascii b) 15 * 64
             + N.land (Ascii.N_of_ascii c) 63)%N in
  let lo := (N.land (Ascii.N_of_ascii e) 15 * 64
             + N.land (Ascii.N_of_ascii f) 63)%N in
  let cp := (65536 + hi * 1024 + lo)%N in
  String (Ascii.ascii_of_N (240 + N.shiftr cp 18))
    (String (Ascii.ascii_of_N (128 + N.land (N.shiftr cp 12) 63))
       (String (Ascii.ascii_of_N (128 + N.land (N.shiftr cp 6) 63))
          (String (Ascii.ascii_of_N (128 + N.land cp 63)) EmptyString))).
Arguments is_high : simpl never.
Arguments is_low : simpl never.
Arguments joined : simpl never.

(** A string as it is read back from the text written for it.  The encoder
    writes every character outside ASCII as an escape, a lone surrogate
    too, and the decoder takes the escape of a high surrogate followed by
    the escape of a low one for one character: two adjacent lone surrogates
    come back joined, everything else as it was. *)
Fixpoint reread (s : string) : string :=
  match s with
  | EmptyString => EmptyString
  | String a t =>
      match t with
      | String b (String c (String d (String e (String f rest)))) =>
          if is_high a b && is_low d e then joined b c e f +:+ reread rest
          else String a (reread t)
      | _ => String a (reread t)
      end
  end.

(** The results of a list of steps, up to the first that raised. *)
Fixpoint all_ok {A} (rs : list (result A)) : result (list A) :=
  match rs with
  | [] => Ok []
  | Ok a :: rs' =>
      match all_ok rs' with
      | Ok l => Ok (a :: l)
      | Raise e => Raise e
      end
  | Raise e :: _ => Raise e
  end.

(** The encoder with [default=str], with [room] levels of nesting left:
    lists and tuples become arrays, a NaN is written as [NaN], which stands
    for the one NaN the decoder knows, and a value the encoder does not know
    is replaced by [str] of it.  It raises a [ValueError] on an integer the
    interpreter does not convert and a [RecursionError] where the nesting
    goes deeper than there is room for. *)
Fixpoint encode (lim : limits) (room : nat) (v : pyval) {struct v}
    : result doc :=
  match v with
  | VNone => Ok JNull
  | VBool b => Ok (JBool b)
  | VInt z =>
      if digits_ok lim z then Ok (JInt z)
      else Raise (Exn ValueError
                    ("Exceeds the limit (" +:+ pretty (max_str_digits lim)
                     +:+ " digits) for integer string conversion; "
                     +:+ "use sys.set_int_max_str_digits() to increase the limit"))
  | VFloat f => Ok (JFloat (if is_nan f then nan else f))
  | VStr s => Ok (JString (reread s))
  | VList xs | VTuple xs =>
      match room with
      | O => Raise (Exn RecursionError "maximum recursion depth exceeded")
      | S room' =>
          match all_ok (map (encode lim room') xs) with
          | Ok ds => Ok (JArray ds)
          | Raise e => Raise e
          end
      end
  | VDict kvs =>
      match room with
      | O => Raise (Exn RecursionError "maximum recursion depth exceeded")
      | S room' =>
          match all_ok (map (fun '(k, x) =>
                               match encode lim room' x with
                               | Ok d => Ok (reread k, d)
                               | Raise e => Raise e
                               end) kvs) with
          | Ok members => Ok (JObject members)
          | Raise e => Raise e
          end
      end
  | VExc e => Ok (JString (reread (str_exn e)))
  | VObj _ repr _ => Ok (JString (reread repr))
  end.

(** The decoder: arrays become lists, objects become dicts (of a repeated
    name the last value is kept). *)
Fixpoint decode (d : doc) : pyval :=
  match d with
  | JNull => VNone
  | JBool b => VBool b
  | JInt z => VInt z
  | JFloat f => VFloat f
  | JString s => VStr s
  | JArray xs => VList (map decode xs)
  | JObject members =>
      VDict (dict_of_pairs (map (fun '(k, x) => (k, decode x)) members))
  end.

(** [json.dumps(v, indent=2, default=str)] under the limits [lim]: the text
    written, named by the document it denotes.  Before a decoder that reads
    it, that text is [Document d]; a decoder whose own limits are lower gives
    up on it, and the text is a [Refused] one there. *)
Definition dumps (lim : limits) (v : pyval) : result doc :=
  encode lim (room lim) v.

(** [json.loads(t)] *)
Definition loads (t : text) : result pyval :=
  match t with
  | Document d => Ok (decode d)
  | Malformed _ why => Raise (Exn JSONDecodeError why)
  | Refused _ _ e => Raise e
  end.

End json.

(** ** shared_context.py *)

Module shared_context.
Local Open Scope py_scope.

(** The entries of the change history (dict literals in the source). *)
Inductive log_entry :=
| LogUpdate (timestamp : nat) (added_keys updated_keys : list string) (total_keys : Z)
| LogSet (timestamp : nat) (key : string) (had_previous_value : bool)
| LogDelete (timestamp : nat) (key : string)
| LogClear (timestamp : nat) (keys_cleared : Z).

Record SharedContextManager := mkSharedContextManager {
  _context : list (string * pyval);
  _history : list log_entry;
  _max_history_size : Z
}.

(** [SharedContextManager()] *)
Definition new : SharedContextManager :=
  mkSharedContextManager [] [] 1000.

Definition with_context (c : list (string * pyval)) (self : SharedContextManager) :=
  mkSharedContextManager c (_history self) (_max_history_size self).

Definition with_history (h : list log_entry) (self : SharedContextManager) :=
  mkSharedContextManager (_context self) h (_max_history_size self).

Section methods.
Context {Ext : Type}.
Local Abbreviation M := (M Ext SharedContextManager).

Definition _add_to_history (entry : log_entry) : M unit :=
  self <- get_self ;;
  set_self (with_history (_history self ++ [entry]) self) ;;
  (* Trim history if needed *)
  self <- get_self ;;
  if (len (_history self) >? _max_history_size self)%Z then
    set_self (with_history
                (slice_from (- _max_history_size self) (_history self)) self)
  else ret tt.

(** The two sets of keys are given as lists without repeats; the order in
    which [list(...)] enumerates a set is not modelled. *)
Definition _log_update (new_keys old_keys : list string) : M unit :=
  let added_keys := filter (fun k => k ∉ old_keys) new_keys in
  let updated_keys := filter (fun k => k ∈ old_keys) new_keys in
  now <- datetime_now ;;
  self <- get_self ;;
  _add_to_history (LogUpdate now added_keys updated_keys (len (_context self))).

Definition _log_change (key : string) (old_value : option pyval)
    (new_value : pyval) : M unit :=
  now <- datetime_now ;;
  _add_to_history
    (LogSet now key
       (match old_value with None | Some VNone => false | Some _ => true end)).

Definition _log_deletion (key : string) (value : pyval) : M unit :=
  now <- datetime_now ;;
  _add_to_history (LogDelete now key).

Definition _log_clear : M unit :=
  now <- datetime_now ;;
  self <- get_self ;;
  _add_to_history (LogClear now (len (_context self))).

Definition update (new_data : list (string * pyval)) : M unit :=
  self <- get_self ;;
  let old_keys := dict_keys (_context self) in
  set_self (with_context (dict_update (_context self) new_data) self) ;;
  let new_keys := remove_dups (dict_keys new_data) in
  (* Log the update *)
  _log_update new_keys old_keys.

Definition set (key : string) (value : pyval) : M unit :=
  self <- get_self ;;
  let old_value := dict_get key (_context self) in
  set_self (with_context (dict_set key value (_context self)) self) ;;
  (* Log the change *)
  _log_change key old_value value.

Definition get (self : SharedContextManager) (key : string) (default : pyval)
    : pyval :=
  match dict_get key (_context self) with Some v => v | None => default end.

Definition get_all (self : SharedContextManager) : list (string * pyval) :=
  _context self.

Definition delete (key : string) : M bool :=
  self <- get_self ;;
  match dict_get key (_context self) with
  | Some value =>
      set_self (with_context (dict_remove key (_context self)) self) ;;
      _log_deletion key value ;;
      ret true
  | None => ret false
  end.

Definition has (self : SharedContextManager) (key : string) : bool :=
  dict_in key (_context self).

Definition clear : M unit :=
  self <- get_self ;;
  set_self (with_context [] self) ;;
  _log_clear ;;
  print "✓ Shared context cleared".

Definition keys (self : SharedContextManager) : list string :=
  dict_keys (_context self).

Definition size (self : SharedContextManager) : Z :=
  len (_context self).

Definition get_history (self : SharedContextManager) (limit : Z)
    : list log_entry :=
  slice_from (- limit) (_history self).

(** [json.dumps(self._context, indent=2, default=str)]; [lim] are the limits
    of the interpreter at the call. *)
Definition export_to_json (lim : json.limits) (self : SharedContextManager)
    : result json.doc :=
  json.dumps lim (VDict (_context self)).

(** An error of the decoder that is not a [JSONDecodeError] passes the
    [except] clause and reaches the caller.  [update] is typed for dicts, and
    [json.loads] may give any document.  One that is not an object makes
    [update] fail on its argument with a [TypeError], a [ValueError] or an
    [AttributeError], according to the value; none of them is a
    [JSONDecodeError], so it reaches the caller.  The model keeps that
    outcome under one class; it does not follow the merge that Python
    performs before failing when the document is an array of pairs. *)
Definition import_from_json (json_str : json.text) : M unit :=
  try_except
    (data <- pure_call (json.loads json_str) ;;
     match data with
     | VDict data =>
         update data ;;
         print ("✓ Imported " +:+ pretty (length data) +:+ " keys from JSON")
     | _ => raise (Exn TypeError "object is not a mapping")
     end)
    is_JSONDecodeError
    (fun e => print ("✗ Failed to import JSON: " +:+ str_exn e)).

(** The keys that start with the namespace and a colon, with their values;
    [key.startswith(prefix)] is [String.prefix prefix key]. *)
Definition get_namespace (self : SharedContextManager) (namespace : string)
    : list (string * pyval) :=
  let prefix := namespace +:+ ":" in
  List.filter (fun '(key, value) => String.prefix prefix key) (_context self).

Definition set_namespaced (namespace key : string) (value : pyval) : M unit :=
  let full_key := namespace +:+ ":" +:+ key in
  set full_key value.

Definition get_namespaced (self : SharedContextManager) (namespace key : string)
    (default : pyval) : pyval :=
  let full_key := namespace +:+ ":" +:+ key in
  get self full_key default.
End methods.
End shared_context.

(** ** event_bus.py *)

Module event_bus.
Local Open Scope py_scope.

Record log_entry := mkLogEntry {
  timestamp : nat;
  event_type : string;
  payload_summary : string
}.

Definition exn_class_name (c : exn_class) : string :=
  match c with
  | ValueError => "ValueError"
  | TypeError => "TypeError"
  | RuntimeError => "RuntimeError"
  | RecursionError => "RecursionError"
  | JSONDecodeError => "JSONDecodeError"
  | UserError name => name
  end.

(** A short description of the payload: objects that carry a [__dict__]
    first (an event, an exception, an instance of a class written in
    Python), then dicts, then lists and tuples, then the name of the type,
    which is all an object without a [__dict__] gets. *)
Definition _summarize_payload (payload : Payload) : string :=
  match payload with
  | PEvent _ => "SystemEvent object"
  | PValue (VObj cls _ true) => cls +:+ " object"
  | PValue (VObj cls _ false) => cls
  | PValue (VExc e) => exn_class_name (exn_cls e) +:+ " object"
  | PValue (VDict kvs) => "Dict with " +:+ pretty (length kvs) +:+ " keys"
  | PValue (VList xs) => "list with " +:+ pretty (length xs) +:+ " items"
  | PValue (VTuple xs) => "tuple with " +:+ pretty (length xs) +:+ " items"
  | PValue VNone => "NoneType"
  | PValue (VBool _) => "bool"
  | PValue (VInt _) => "int"
  | PValue (VFloat _) => "float"
  | PValue (VStr _) => "str"
  end.

Section methods.
Context {Ext : Type}.

Record EventBus := mkEventBus {
  _subscribers : list (string * list (Callable Ext));
  _event_log : list log_entry;
  _max_log_size : Z
}.

Local Abbreviation M := (M Ext EventBus).

(** [EventBus()] *)
Definition new : EventBus := mkEventBus [] [] 10000.

Definition with_subscribers (subs : list (string * list (Callable Ext)))
    (self : EventBus) : EventBus :=
  mkEventBus subs (_event_log self) (_max_log_size self).

Definition with_event_log (log : list log_entry) (self : EventBus) : EventBus :=
  mkEventBus (_subscribers self) log (_max_log_size self).

(** [self._subscribers.get(event_type, [])] *)
Definition subscribers_of (self : EventBus) (event_type : string)
    : list (Callable Ext) :=
  default [] (dict_get event_type (_subscribers self)).

(** The callback is callable by its type; the [ValueError] branch of the
    source is for arguments that are not. *)
Definition subscribe (event_type : string) (callback : Callable Ext) : M unit :=
  self <- get_self ;;
  set_self (with_subscribers
              (dict_set event_type (subscribers_of self event_type ++ [callback])
                 (_subscribers self)) self) ;;
  print ("✓ Subscribed to event: " +:+ event_type).

Definition _log_event (event_type : string) (payload : Payload) : M unit :=
  now <- datetime_now ;;
  let entry := mkLogEntry now event_type (_summarize_payload payload) in
  self <- get_self ;;
  set_self (with_event_log (_event_log self ++ [entry]) self) ;;
  (* Trim log if it exceeds max size *)
  self <- get_self ;;
  if (len (_event_log self) >? _max_log_size self)%Z then
    set_self (with_event_log
                (slice_from (- _max_log_size self) (_event_log self)) self)
  else ret tt.

(** One round of the loop over the subscribers. *)
Definition notify (event_type : string) (payload : Payload)
    (subscriber : Callable Ext) : M unit :=
  try_except
    (* Handle both sync and async callbacks *)
    (if iscoroutinefunction subscriber
     then create_task subscriber payload
     else call_sync subscriber payload)
    any_Exception
    (fun e =>
       print ("✗ Error in subscriber for " +:+ event_type +:+ ": " +:+ str_exn e)).

Definition publish (event_type : string) (payload : Payload) : M unit :=
  (* Log the event *)
  _log_event event_type payload ;;
  (* Notify all subscribers *)
  self <- get_self ;;
  let subscribers := subscribers_of self event_type in
  for_each subscribers (notify event_type payload).

Definition get_event_log (self : EventBus) (event_type : option string)
    (limit : Z) : list log_entry :=
  match event_type with
  | Some t =>
      if bool_decide (t = "") then slice_from (- limit) (_event_log self)
      else slice_from (- limit)
             (filter (fun entry => event_bus.event_type entry = t) (_event_log self))
  | None => slice_from (- limit) (_event_log self)
  end.

(** [same a b] is [a == b] on callables, which Python decides by the
    identity of the function objects; the model, where a callable is what it
    does, takes the comparison from the caller.  A topic that is not a key of
    [_subscribers] is left alone: the membership test does not make it
    one. *)
Definition unsubscribe (same : Callable Ext -> Callable Ext -> bool)
    (event_type : string) (callback : Callable Ext) : M unit :=
  self <- get_self ;;
  if dict_in event_type (_subscribers self) then
    try_except
      (match list_remove same callback (subscribers_of self event_type) with
       | Some rest =>
           set_self (with_subscribers
                       (dict_set event_type rest (_subscribers self)) self)
       | None => raise (Exn ValueError "list.remove(x): x not in list")
       end ;;
       print ("✓ Unsubscribed from event: " +:+ event_type))
      is_ValueError
      (fun _ => print ("⚠ Callback not found for event: " +:+ event_type))
  else ret tt.

(** One round of the loop of [publish_async]: a coroutine function is
    called, which makes the coroutine and runs nothing of it, and the
    coroutine joins [tasks]; a plain function runs at once. *)
Definition collect (event_type : string) (payload : Payload)
    (tasks : list (Callable Ext * Payload)) (subscriber : Callable Ext)
    : M (list (Callable Ext * Payload)) :=
  try_except
    (if iscoroutinefunction subscriber
     then ret (tasks ++ [(subscriber, payload)])
     else call_sync subscriber payload ;; ret tasks)
    any_Exception
    (fun e =>
       print ("✗ Error in subscriber for " +:+ event_type +:+ ": " +:+ str_exn e) ;;
       ret tasks).

Definition publish_async (event_type : string) (payload : Payload) : M unit :=
  (* Log the event *)
  _log_event event_type payload ;;
  (* Notify all subscribers *)
  self <- get_self ;;
  let subscribers := subscribers_of self event_type in
  tasks <- for_each_from [] subscribers (collect event_type payload) ;;
  (* Wait for all async tasks to complete *)
  match tasks with
  | [] => ret tt
  | _ => await_gather tasks
  end.

(** An empty topic counts as none given, as [None] does. *)
Definition get_subscriber_count (self : EventBus) (event_type : option string)
    : Z :=
  match event_type with
  | Some t =>
      if bool_decide (t = "")
      then sum (map (fun '(_, subs) => len subs) (_subscribers self))
      else len (subscribers_of self t)
  | None => sum (map (fun '(_, subs) => len subs) (_subscribers self))
  end.

Definition get_event_types (self : EventBus) : list string :=
  dict_keys (_subscribers self).

Definition clear_subscribers (event_type : option string) : M unit :=
  self <- get_self ;;
  match event_type with
  | Some t =>
      if bool_decide (t = "") then
        set_self (with_subscribers [] self) ;;
        print "✓ Cleared all subscribers"
      else
        set_self (with_subscribers (dict_set t [] (_subscribers self)) self) ;;
        print ("✓ Cleared subscribers for: " +:+ t)
  | None =>
      set_self (with_subscribers [] self) ;;
      print "✓ Cleared all subscribers"
  end.
End methods.
Arguments EventBus : clear implicits.
End event_bus.

(** ** mcp.py *)

Module mcp.
Local Open Scope py_scope.

(** How an awaited [agent.process(event)] ends. *)
Inductive outcome :=
| Returned (r : list (string * pyval))   (* the [Dict[str, Any]] it returns *)
| Raised (e : exn).

(** A registered worker, as far as the orchestrator looks at it: the name of
    its class ([type(agent).__name__]) and its [process] coroutine. *)
Record Agent := mkAgent {
  class_name : string;
  process : SystemEvent -> outcome
}.

(** [asyncio.gather] over the coroutines, with [return_exceptions=True]:
    the results come in the order of the coroutines, an exception in the
    place of the result of the coroutine that raised it. *)
Definition gather (outcomes : list outcome) : list pyval :=
  map (fun o => match o with Returned r => VDict r | Raised e => VExc e end)
    outcomes.

Section methods.
Context {Ext : Type}.

Record MasterControlProgram := mkMasterControlProgram {
  agents : list (AgentType * Agent);
  event_bus : event_bus.EventBus Ext;
  shared_context : shared_context.SharedContextManager;
  _routing_rules : list (string * list AgentType);
  _event_history : list SystemEvent;
  _max_history_size : Z
}.

Local Abbreviation M := (M Ext MasterControlProgram).

Definition _initialize_routing_rules : list (string * list AgentType) :=
  [ ("email_received", [LA_SECRETARIA; EL_CALENDISTA]);
    ("document_uploaded", [LA_ARCHIVISTA; EL_ESTRATEGA]);
    ("deadline_approaching", [EL_CALENDISTA; LA_SECRETARIA]);
    ("document_analyzed", [LA_ARCHIVISTA; EL_ESTRATEGA]);
    ("pattern_detected", [EL_ESTRATEGA]);
    ("calendar_event_created", [EL_CALENDISTA]);
    ("search_query", [LA_ARCHIVISTA]) ].

(** [MasterControlProgram()] *)
Definition new : MasterControlProgram :=
  mkMasterControlProgram [] event_bus.new shared_context.new
    _initialize_routing_rules [] 1000.

Definition with_agents (a : list (AgentType * Agent))
    (self : MasterControlProgram) : MasterControlProgram :=
  mkMasterControlProgram a (event_bus self) (shared_context self)
    (_routing_rules self) (_event_history self) (_max_history_size self).

Definition with_event_bus (b : event_bus.EventBus Ext)
    (self : MasterControlProgram) : MasterControlProgram :=
  mkMasterControlProgram (agents self) b (shared_context self)
    (_routing_rules self) (_event_history self) (_max_history_size self).

Definition with_shared_context (c : shared_context.SharedContextManager)
    (self : MasterControlProgram) : MasterControlProgram :=
  mkMasterControlProgram (agents self) (event_bus self) c
    (_routing_rules self) (_event_history self) (_max_history_size self).

Definition with_event_history (h : list SystemEvent)
    (self : MasterControlProgram) : MasterControlProgram :=
  mkMasterControlProgram (agents self) (event_bus self) (shared_context self)
    (_routing_rules self) h (_max_history_size self).

Definition register_agent (agent_type : AgentType) (agent_instance : Agent)
    : M unit :=
  self <- get_self ;;
  set_self (with_agents (dict_set agent_type agent_instance (agents self)) self) ;;
  print ("✓ Registered agent: " +:+ AgentType_name agent_type).

Definition _determine_relevant_agents (self : MasterControlProgram)
    (event : SystemEvent) : list Agent :=
  let agent_types := default [] (dict_get (type event) (_routing_rules self)) in
  (* Filter to only registered agents *)
  omap (fun agent_type => dict_get agent_type (agents self)) agent_types.

(** One round of the loop over the workers and their results. *)
Definition record_result (processed : list (string * pyval))
    (agent : Agent) (result : pyval) : list (string * pyval) :=
  let agent_name := class_name agent in
  match result with
  | VExc e =>
      dict_set agent_name
        (VDict [("status", VStr "error"); ("error", VStr (str_exn e))])
        processed
  | _ => dict_set agent_name result processed
  end.

Definition _process_agent_results (agents : list Agent) (results : list pyval)
    : list (string * pyval) :=
  fold_left
    (fun processed '(agent, result) => record_result processed agent result)
    (zip agents results) [].

Definition _add_to_history (event : SystemEvent) : M unit :=
  self <- get_self ;;
  set_self (with_event_history (_event_history self ++ [event]) self) ;;
  (* Trim history if it exceeds max size *)
  self <- get_self ;;
  if (len (_event_history self) >? _max_history_size self)%Z then
    set_self (with_event_history
                (slice_from (- _max_history_size self) (_event_history self)) self)
  else ret tt.

Definition process_event (event : SystemEvent) : M (list (string * pyval)) :=
  (* Store event in history *)
  _add_to_history event ;;
  (* Publish event to event bus *)
  on_attr event_bus with_event_bus
    (event_bus.publish (type event) (PEvent event)) ;;
  (* Determine relevant agents for this event *)
  self <- get_self ;;
  let relevant_agents := _determine_relevant_agents self event in
  match relevant_agents with
  | [] =>
      ret [ ("status", VStr "no_agents");
            ("message", VStr ("No agents configured for event type: " +:+ type event));
            ("event", VStr (type event)) ]
  | _ =>
      (* Parallel processing of event by relevant agents *)
      try_except
        (results <-
           await (gather (map (fun agent => process agent event) relevant_agents)) ;;
         (* Process results and update shared context *)
         let processed_results :=
           _process_agent_results relevant_agents results in
         (* Update shared context with results *)
         on_attr shared_context with_shared_context
           (shared_context.update
              [ ("last_" +:+ type event,
                 VDict [ ("timestamp", VFloat (timestamp event));
                         ("results", VDict processed_results) ]) ]) ;;
         ret [ ("status", VStr "success");
               ("event", VStr (type event));
               ("agents_processed", VInt (len relevant_agents));
               ("results", VDict processed_results) ])
        any_Exception
        (fun e =>
           ret [ ("status", VStr "error");
                 ("event", VStr (type event));
                 ("error", VStr (str_exn e)) ])
  end.

Definition get_event_history (self : MasterControlProgram)
    (event_type : option string) (limit : Z) : list SystemEvent :=
  match event_type with
  | Some t =>
      if bool_decide (t = "") then slice_from (- limit) (_event_history self)
      else
        let filtered := filter (fun event => type event = t) (_event_history self) in
        slice_from (- limit) filtered
  | None => slice_from (- limit) (_event_history self)
  end.

Definition get_system_stats (self : MasterControlProgram)
    : list (string * pyval) :=
  [ ("registered_agents", VInt (len (agents self)));
    ("agent_types", VList (map (fun t => VStr (AgentType_name t))
                             (dict_keys (agents self))));
    ("total_events_processed", VInt (len (_event_history self)));
    ("event_types", VList (map VStr (dict_keys (_routing_rules self))));
    ("shared_context_keys",
       VInt (len (shared_context._context (shared_context self)))) ].
End methods.
Arguments MasterControlProgram : clear implicits.
End mcp.

(** * Vocabulary of the properties *)

(** What a log holds after one more entry made it [l]: the whole of [l], or
    its last [cap] entries when it is longer than [cap]. *)
Definition keep_last {A} (cap : Z) (l : list A) : list A :=
  if (len l >? cap)%Z then slice_from (- cap) l else l.

(** The fields a [SystemEvent] may be built from. *)
Definition valid_fields (type : string) (payload : pyval) (priority : Z) : Prop :=
  type <> "" /\ isinstance_dict payload = true /\ (1 <= priority <= 10)%Z.

(** A string without a high surrogate right before a low one. *)
Definition starts_with_pair (s : string) : bool :=
  match s with
  | String a (String b (String c (String d (String e (String f _))))) =>
      json.is_high a b && json.is_low d e
  | _ => false
  end.

Fixpoint surrogate_pair_free (s : string) : bool :=
  match s with
  | EmptyString => true
  | String a t => negb (starts_with_pair s) && surrogate_pair_free t
  end.

(** The values that come back from JSON as they went, under the limits
    [lim] and with [room] levels of nesting left: [None], booleans, integers
    that the interpreter converts to text, floats other than the NaNs (a NaN
    comes back as a NaN, and a NaN is equal to no float, itself included),
    strings without a pair of adjacent lone surrogates, and lists of such
    values and dicts of such values under such keys (distinct, as the keys of
    any dict are), nested no deeper than there is room for. *)
Fixpoint json_native (lim : json.limits) (room : nat) (v : pyval) {struct v}
    : bool :=
  match v with
  | VNone | VBool _ => true
  | VInt z => json.digits_ok lim z
  | VFloat f => negb (json.is_nan f)
  | VStr s => surrogate_pair_free s
  | VList xs =>
      match room with
      | O => false
      | S room' => forallb (json_native lim room') xs
      end
  | VDict kvs =>
      match room with
      | O => false
      | S room' =>
          bool_decide (NoDup kvs.*1)
          && forallb (fun '(k, x) =>
                        surrogate_pair_free k && json_native lim room' x) kvs
      end
  | VTuple _ | VExc _ | VObj _ _ _ => false
  end.

Section pyval_ind.
Variable P : pyval -> Prop.
Hypothesis HNone : P VNone.
Hypothesis HBool : forall b, P (VBool b).
Hypothesis HInt : forall z, P (VInt z).
Hypothesis HFloat : forall f, P (VFloat f).
Hypothesis HStr : forall s, P (VStr s).
Hypothesis HList : forall xs, Forall P xs -> P (VList xs).
Hypothesis HTuple : forall xs, Forall P xs -> P (VTuple xs).
Hypothesis HDict : forall kvs, Forall (fun kv => P kv.2) kvs -> P (VDict kvs).
Hypothesis HExc : forall e, P (VExc e).
Hypothesis HObj : forall cls repr has_dict, P (VObj cls repr has_dict).

(** Induction over values, with the hypothesis for every element of a list
    or tuple and every value of a dict. *)
Fixpoint pyval_nested_ind (v : pyval) : P v :=
  match v with
  | VNone => HNone
  | VBool b => HBool b
  | VInt z => HInt z
  | VFloat f => HFloat f
  | VStr s => HStr s
  | VList xs =>
      HList xs
        ((fix go xs : Forall P xs :=
            match xs with
            | [] => List.Forall_nil P
            | x :: xs' => List.Forall_cons P x xs' (pyval_nested_ind x) (go xs')
            end) xs)
  | VTuple xs =>
      HTuple xs
        ((fix go xs : Forall P xs :=
            match xs with
            | [] => List.Forall_nil P
            | x :: xs' => List.Forall_cons P x xs' (pyval_nested_ind x) (go xs')
            end) xs)
  | VDict kvs =>
      HDict kvs
        ((fix go kvs : Forall (fun kv => P kv.2) kvs :=
            match kvs with
            | [] => List.Forall_nil _
            | (k, x) :: kvs' =>
                List.Forall_cons (fun kv => P kv.2) (k, x) kvs'
                  (pyval_nested_ind x) (go kvs')
            end) kvs)
  | VExc e => HExc e
  | VObj cls repr has_dict => HObj cls repr has_dict
  end.
End pyval_ind.

(** What the aggregated mapping is to hold for a worker that ended with
    [o]: its result, or the structured error entry. *)
Definition entry_of (o : mcp.outcome) : pyval :=
  match o with
  | mcp.Returned r => VDict r
  | mcp.Raised e => VDict [("status", VStr "error"); ("error", VStr (str_exn e))]
  end.

(** The aggregated mapping for the workers [relevant]. *)
Definition aggregated (relevant : list mcp.Agent) event : list (string * pyval) :=
  mcp._process_agent_results relevant
    (mcp.gather (map (fun a => mcp.process a event) relevant)).

Definition no_agents_outcome event : list (string * pyval) :=
  [ ("status", VStr "no_agents");
    ("message", VStr ("No agents configured for event type: " +:+ type event));
    ("event", VStr (type event)) ].

Definition success_outcome event (n : Z) (processed : list (string * pyval))
    : list (string * pyval) :=
  [ ("status", VStr "success");
    ("event", VStr (type event));
    ("agents_processed", VInt n);
    ("results", VDict processed) ].

(** The summary [process_event] merges into the store. *)
Definition summary event (processed : list (string * pyval))
    : list (string * pyval) :=
  [ ("last_" +:+ type event,
     VDict [ ("timestamp", VFloat (timestamp event));
             ("results", VDict processed) ]) ].

(** The line [publish] prints for an error it caught. *)
Definition error_line (event_type : string) (e : exn) : string :=
  "✗ Error in subscriber for " +:+ event_type +:+ ": " +:+ str_exn e.

(** The name and the entry of every worker, in the order of the workers. *)
Definition entries_of (relevant : list mcp.Agent) (event : SystemEvent)
    : list (string * pyval) :=
  map (fun a => (mcp.class_name a, entry_of (mcp.process a event))) relevant.

(** The entries that logging the publications [pubs] makes, the first at
    clock reading [c]. *)
Fixpoint entries_from (c : nat) (pubs : list (string * Payload))
    : list event_bus.log_entry :=
  match pubs with
  | [] => []
  | (t, p) :: pubs' =>
      event_bus.mkLogEntry c t (event_bus._summarize_payload p)
        :: entries_from (S c) pubs'
  end.

(** The store after [update(new_data)] at clock reading [now]. *)
Definition updated (new_data : list (string * pyval)) (now : nat) c
    : shared_context.SharedContextManager :=
  let old_keys := dict_keys (shared_context._context c) in
  let new_keys := remove_dups (dict_keys new_data) in
  let context := dict_update (shared_context._context c) new_data in
  shared_context.mkSharedContextManager context
    (keep_last (shared_context._max_history_size c)
       (shared_context._history c
          ++ [shared_context.LogUpdate now
                (filter (fun k => k ∉ old_keys) new_keys)
                (filter (fun k => k ∈ old_keys) new_keys)
                (len context)]))
    (shared_context._max_history_size c).

Section vocabulary.
Context {Ext : Type}.
Implicit Types (w : World Ext) (b : event_bus.EventBus Ext) (h : Callable Ext).
Implicit Types (m : mcp.MasterControlProgram Ext) (event : SystemEvent).

(** The world after [n] more readings of the clock. *)
Definition tick (n : nat) w : World Ext :=
  mkWorld (ext w) (loop w) (stdout w) (n + clock w).

(** The world once the loop has run the tasks it was handed. *)
Definition drained w : World Ext :=
  match loop w with
  | Some tasks =>
      mkWorld (fold_left run_task tasks (ext w)) (Some []) (stdout w) (clock w)
  | None => w
  end.

(** The world after one more line was printed. *)
Definition printed (line : string) w : World Ext :=
  mkWorld (ext w) (loop w) (stdout w ++ [line]) (clock w).

(** The world after subscriber [h] had its turn: its effect on the state of
    the subscribers or its task in the loop, and a line for the error, if
    there was one. *)
Definition after_handler (event_type : string) (p : Payload) w h : World Ext :=
  if iscoroutinefunction h then
    match loop w with
    | Some tasks => mkWorld (ext w) (Some (tasks ++ [(h, p)])) (stdout w) (clock w)
    | None =>
        printed (error_line event_type (Exn RuntimeError "no running event loop")) w
    end
  else
    match call h p (ext w) with
    | (x, Ok _) => mkWorld x (loop w) (stdout w) (clock w)
    | (x, Raise e) =>
        printed (error_line event_type e) (mkWorld x (loop w) (stdout w) (clock w))
    end.



(** The orchestrator once [event] is in its history. *)
Definition recorded event m : mcp.MasterControlProgram Ext :=
  mcp.with_event_history
    (keep_last (mcp._max_history_size m) (mcp._event_history m ++ [event])) m.

(** The bus and the world once [event] was published. *)
Definition after_publish event m w : event_bus.EventBus Ext * World Ext :=
  (event_bus.publish (type event) (PEvent event) (mcp.event_bus m) w).1.

(** The identities the routing table gives for the kind of [event]. *)
Definition routed m event : list AgentType :=
  default [] (dict_get (type event) (mcp._routing_rules m)).

(** The events of the history that a filter selects; no filter, or an empty
    one, selects them all. *)
Definition matching m (event_type : option string) : list SystemEvent :=
  match event_type with
  | Some t =>
      if bool_decide (t = "") then mcp._event_history m
      else filter (fun event => type event = t) (mcp._event_history m)
  | None => mcp._event_history m
  end.

(** A caller that hands a list of events to [process_event], one by one. *)
Definition process_events (events : list SystemEvent)
    : M Ext (mcp.MasterControlProgram Ext) unit :=
  for_each events (fun event => bind (mcp.process_event event) (fun _ => ret tt)).

(** The three logs of an orchestrator are within their capacities, and the
    capacities are the ones set at construction. *)
Definition logs_bounded m : Prop :=
  (mcp._max_history_size m = 1000
   /\ len (mcp._event_history m) <= 1000)%Z
  /\ (event_bus._max_log_size (mcp.event_bus m) = 10000
      /\ len (event_bus._event_log (mcp.event_bus m)) <= 10000)%Z
  /\ (shared_context._max_history_size (mcp.shared_context m) = 1000
      /\ len (shared_context._history (mcp.shared_context m)) <= 1000)%Z.

(** A call on the orchestrator, on its bus or on its store. *)
Inductive action :=
| Register (agent_type : AgentType) (agent_instance : mcp.Agent)
| Process (event : SystemEvent)
| Subscribe (event_type : string) (callback : Callable Ext)
| Publish (event_type : string) (p : Payload)
| StoreSet (key : string) (value : pyval)
| StoreUpdate (new_data : list (string * pyval))
| StoreDelete (key : string)
| StoreClear
| StoreImport (json_str : json.text).

(** The call, its result dropped. *)
Definition perform (c : action) : M Ext (mcp.MasterControlProgram Ext) unit :=
  match c with
  | Register agent_type agent_instance =>
      mcp.register_agent agent_type agent_instance
  | Process event => bind (mcp.process_event event) (fun _ => ret tt)
  | Subscribe event_type callback =>
      on_attr mcp.event_bus mcp.with_event_bus
        (event_bus.subscribe event_type callback)
  | Publish event_type p =>
      on_attr mcp.event_bus mcp.with_event_bus (event_bus.publish event_type p)
  | StoreSet key value =>
      on_attr mcp.shared_context mcp.with_shared_context
        (shared_context.set key value)
  | StoreUpdate new_data =>
      on_attr mcp.shared_context mcp.with_shared_context
        (shared_context.update new_data)
  | StoreDelete key =>
      on_attr mcp.shared_context mcp.with_shared_context
        (bind (shared_context.delete key) (fun _ => ret tt))
  | StoreClear =>
      on_attr mcp.shared_context mcp.with_shared_context shared_context.clear
  | StoreImport json_str =>
      on_attr mcp.shared_context mcp.with_shared_context
        (shared_context.import_from_json json_str)
  end.

End vocabulary.

(** ** Vocabulary of the bus *)

Section vocabulary_of_the_bus.
Context {Ext : Type}.
Implicit Types (w : World Ext) (b : event_bus.EventBus Ext) (h : Callable Ext).

(** The number of subscriptions a table of subscribers holds, over all its
    topics. *)
Definition total_subscribers (subs : list (string * list (Callable Ext))) : Z :=
  sum (map (fun '(_, hs) => len hs) subs).

(** The entries of the log that a topic selects; no topic, or an empty one,
    selects them all. *)
Definition logged b (event_type : option string) : list event_bus.log_entry :=
  match event_type with
  | Some t =>
      if bool_decide (t = "") then event_bus._event_log b
      else filter (fun entry => event_bus.event_type entry = t) (event_bus._event_log b)
  | None => event_bus._event_log b
  end.

(** The entry the bus logs for a publication at clock reading [now]. *)
Definition publication (now : nat) (event_type : string) (p : Payload)
    : event_bus.log_entry :=
  event_bus.mkLogEntry now event_type (event_bus._summarize_payload p).

(** The world after subscriber [h] had its turn in [publish_async]: a plain
    function has run, a coroutine function has run nothing yet. *)
Definition after_collect (event_type : string) (p : Payload) w h : World Ext :=
  if iscoroutinefunction h then w else after_handler event_type p w h.

(** The coroutines [publish_async] gathers for the subscribers [hs]. *)
Definition coroutines_of (p : Payload) (hs : list (Callable Ext))
    : list (Callable Ext * Payload) :=
  map (fun h => (h, p)) (filter iscoroutinefunction hs).

End vocabulary_of_the_bus.

(** ** Sample objects *)

(** A world with a running event loop, no subscriber state, nothing printed. *)
Definition quiet : World unit := mkWorld tt (Some []) [] 0.

(** A store as the orchestrator leaves it after one event. *)
Definition store_after_ping : shared_context.SharedContextManager :=
  shared_context.with_context
    [ ("last_ping",
       VDict [ ("timestamp", VFloat 17);
               ("results", VDict [("X", VDict [("echo", VDict [("n", VInt 1)])])]) ]) ]
    shared_context.new.

(** An event of a routed kind. *)
Definition email : SystemEvent :=
  mkSystemEvent "email_received" (VDict [("n", VInt 1)]) 17 None 5.

(** An earlier event of another routed kind. *)
Definition query : SystemEvent :=
  mkSystemEvent "search_query" (VDict [("q", VStr "lease")]) 11 None 3.

(** A worker that returns what it was sent, and one that raises. *)
Definition echo (cls : string) : mcp.Agent :=
  mcp.mkAgent cls (fun event => mcp.Returned [("echo", payload event)]).


(** A new orchestrator with the given workers registered, in order. *)
Definition registered (workers : list (AgentType * mcp.Agent))
    : mcp.MasterControlProgram unit :=
  (for_each workers (fun tw => mcp.register_agent tw.1 tw.2) mcp.new quiet).1.1.


(** Only the first of the two routed identities is registered. *)
Definition one_worker : mcp.MasterControlProgram unit :=
  registered [ (LA_SECRETARIA, echo "LaSecretaria") ].

(** A subscriber that notes its name in the state of the subscribers, a list
    of names, and then returns or raises. *)
Definition noting (name : string) (fails : bool) : Callable (list string) :=
  mkCallable false
    (fun _ seen =>
       (seen ++ [name],
        if fails then Raise (Exn (UserError "Boom") (name +:+ " failed"))
        else Ok tt)).

(** A new bus with three subscribers of one topic, the second of which
    raises. *)
Definition three_subscribers : event_bus.EventBus (list string) :=
  (for_each [noting "first" false; noting "second" true; noting "third" false]
     (event_bus.subscribe "topic") event_bus.new (mkWorld [] None [] 0)).1.1.

(** Python tells functions apart by their identity; two [noting] subscribers
    are one function when they note one name. *)
Definition same_note (f g : Callable (list string)) : bool :=
  bool_decide ((call f (PValue VNone) []).1 = (call g (PValue VNone) []).1).




(** The limits of an interpreter with its settings as they come: integers
    of up to 4300 digits, and room for 500 levels of nesting. *)
Definition usual : json.limits := json.mkLimits 4300 500.

(** A text of [n] opening brackets and nothing else. *)
Fixpoint unclosed (n : nat) : string :=
  match n with
  | O => EmptyString
  | S n' => "[" +:+ unclosed n'
  end.

(** The error of a decoder that ran out of room inside an array. *)
Definition out_of_room : exn :=
  Exn RecursionError
    "maximum recursion depth exceeded while decoding a JSON array from a unicode string".

(** A store with two keys, one of which holds [None]. *)
Definition small_store : shared_context.SharedContextManager :=
  shared_context.with_context [("k", VInt 1); ("none", VNone)] shared_context.new.

(** * Properties *)

(** ** Slices and bounded logs *)

Lemma slice_from_neg {A} (n : Z) (l : list A) :
  (0 < n)%Z -> slice_from (- n) l = drop (length l - Z.to_nat n) l.
Proof.
  intros Hn. unfold slice_from.
  destruct (Z.ltb_spec (- n) 0) as [_|Hge]; [|lia].
  f_equal. lia.
Qed.

Lemma slice_from_zero {A} (l : list A) : slice_from 0 l = l.
Proof. reflexivity. Qed.

Lemma keep_last_drop {A} (cap : Z) (l : list A) :
  (0 < cap)%Z -> keep_last cap l = drop (length l - Z.to_nat cap) l.
Proof.
  intros Hcap. unfold keep_last, len.
  destruct (Z.gtb_spec (Z.of_nat (length l)) cap) as [Hgt|Hle].
  - by apply slice_from_neg.
  - replace (length l - Z.to_nat cap) with 0 by lia. reflexivity.
Qed.

Lemma keep_last_length {A} (cap : Z) (l : list A) :
  (0 < cap)%Z -> length (keep_last cap l) = length l `min` Z.to_nat cap.
Proof. intros Hcap. rewrite keep_last_drop, length_drop by done. lia. Qed.

Lemma keep_last_id {A} (cap : Z) (l : list A) :
  (len l <= cap)%Z -> keep_last cap l = l.
Proof.
  intros Hle. unfold keep_last.
  by destruct (Z.gtb_spec (len l) cap) as [Hgt|_]; [lia|].
Qed.

(** Trimming after every append leaves what one trim at the end would. *)
Lemma keep_last_app {A} (cap : Z) (l es : list A) :
  (0 < cap)%Z -> keep_last cap (keep_last cap l ++ es) = keep_last cap (l ++ es).
Proof.
  intros Hcap. rewrite !keep_last_drop by done.
  rewrite !skipn_app, drop_drop, !length_app, !length_drop.
  f_equal; f_equal; lia.
Qed.

(** ** Running computations *)

Section run.
Context {Ext Self : Type}.
Implicit Types (s : Self) (w : World Ext).

Lemma bind_ok {A B} (m : M Ext Self A) (k : A -> M Ext Self B) s w s' w' a :
  m s w = (s', w', Ok a) -> bind m k s w = k a s' w'.
Proof. unfold bind. by intros ->. Qed.

Lemma bind_raise {A B} (m : M Ext Self A) (k : A -> M Ext Self B) s w s' w' e :
  m s w = (s', w', Raise e) -> bind m k s w = (s', w', Raise e).
Proof. unfold bind. by intros ->. Qed.

Lemma try_except_ok {A} (m : M Ext Self A) catches h s w s' w' a :
  m s w = (s', w', Ok a) -> try_except m catches h s w = (s', w', Ok a).
Proof. unfold try_except. by intros ->. Qed.

Lemma try_except_caught {A} (m : M Ext Self A) catches h s w s' w' e :
  m s w = (s', w', Raise e) -> catches e = true ->
  try_except m catches h s w = h e s' w'.
Proof. unfold try_except. by intros -> ->. Qed.

Lemma on_attr_run {T A} (proj : Self -> T) upd (m : M Ext T A) s w t' w' r :
  m (proj s) w = (t', w', r) -> on_attr proj upd m s w = (upd t' s, w', r).
Proof. unfold on_attr. by intros ->. Qed.
End run.

(** ** The three bounded logs *)

Section bounded_logs.
Context {Ext : Type}.
Implicit Types (w : World Ext).

Lemma mcp_add_to_history_run (event : SystemEvent) (m : mcp.MasterControlProgram Ext) w :
  mcp._add_to_history event m w =
    (mcp.with_event_history
       (keep_last (mcp._max_history_size m) (mcp._event_history m ++ [event])) m,
     w, Ok tt).
Proof.
  unfold mcp._add_to_history, bind, get_self, set_self, ret, keep_last. simpl.
  by destruct (_ >? _)%Z.
Qed.

Lemma mcp_appends (events : list SystemEvent) (m : mcp.MasterControlProgram Ext) w :
  (0 < mcp._max_history_size m)%Z ->
  (len (mcp._event_history m) <= mcp._max_history_size m)%Z ->
  for_each events mcp._add_to_history m w =
    (mcp.with_event_history
       (keep_last (mcp._max_history_size m) (mcp._event_history m ++ events)) m,
     w, Ok tt).
Proof.
  intros Hcap. revert m Hcap.
  induction events as [|e events IH]; intros m Hcap Hlen.
  - rewrite app_nil_r, keep_last_id by done. by destruct m.
  - simpl. erewrite bind_ok by apply mcp_add_to_history_run.
    rewrite IH; simpl; [|done|].
    + rewrite keep_last_app by done. by rewrite <- app_assoc.
    + unfold len. rewrite keep_last_length by done. lia.
Qed.

Lemma store_add_to_history_run (entry : shared_context.log_entry)
    (c : shared_context.SharedContextManager) w :
  shared_context._add_to_history entry c w =
    (shared_context.with_history
       (keep_last (shared_context._max_history_size c)
          (shared_context._history c ++ [entry])) c,
     w, Ok tt).
Proof.
  unfold shared_context._add_to_history, bind, get_self, set_self, ret, keep_last.
  simpl. by destruct (_ >? _)%Z.
Qed.

Lemma store_appends (entries : list shared_context.log_entry)
    (c : shared_context.SharedContextManager) w :
  (0 < shared_context._max_history_size c)%Z ->
  (len (shared_context._history c) <= shared_context._max_history_size c)%Z ->
  for_each entries shared_context._add_to_history c w =
    (shared_context.with_history
       (keep_last (shared_context._max_history_size c)
          (shared_context._history c ++ entries)) c,
     w, Ok tt).
Proof.
  intros Hcap. revert c Hcap.
  induction entries as [|e entries IH]; intros c Hcap Hlen.
  - rewrite app_nil_r, keep_last_id by done. by destruct c.
  - simpl. erewrite bind_ok by apply store_add_to_history_run.
    rewrite IH; simpl; [|done|].
    + rewrite keep_last_app by done. by rewrite <- app_assoc.
    + unfold len. rewrite keep_last_length by done. lia.
Qed.

Lemma entries_from_length c pubs : length (entries_from c pubs) = length pubs.
Proof. revert c. induction pubs as [|[t p] pubs IH]; intros c; simpl; auto. Qed.

Lemma bus_log_event_run (t : string) (p : Payload) (b : event_bus.EventBus Ext) w :
  event_bus._log_event t p b w =
    (event_bus.with_event_log
       (keep_last (event_bus._max_log_size b)
          (event_bus._event_log b
             ++ [event_bus.mkLogEntry (clock w) t (event_bus._summarize_payload p)])) b,
     tick 1 w, Ok tt).
Proof.
  unfold event_bus._log_event, bind, datetime_now, get_self, set_self, ret, keep_last.
  simpl. by destruct (_ >? _)%Z.
Qed.

Lemma bus_appends (pubs : list (string * Payload)) (b : event_bus.EventBus Ext) w :
  (0 < event_bus._max_log_size b)%Z ->
  (len (event_bus._event_log b) <= event_bus._max_log_size b)%Z ->
  for_each pubs (fun tp => event_bus._log_event tp.1 tp.2) b w =
    (event_bus.with_event_log
       (keep_last (event_bus._max_log_size b)
          (event_bus._event_log b ++ entries_from (clock w) pubs)) b,
     tick (length pubs) w, Ok tt).
Proof.
  intros Hcap. revert b w Hcap.
  induction pubs as [|[t p] pubs IH]; intros b w Hcap Hlen.
  - simpl. rewrite app_nil_r, keep_last_id by done. by destruct b, w.
  - simpl. erewrite bind_ok by apply bus_log_event_run.
    rewrite IH; simpl; [|done|].
    + rewrite keep_last_app by done. rewrite <- app_assoc. simpl.
      unfold tick. simpl. do 3 f_equal. lia.
    + unfold len. rewrite keep_last_length by done. lia.
Qed.

End bounded_logs.

(** ** Construction of events *)

(** C3.  Construction succeeds, storing the fields as given, exactly when the
    kind is not empty, the payload is a dict and the priority lies in 1..10;
    otherwise it raises a [ValueError]; an event that was built has valid
    fields. *)
Theorem SystemEvent_new_validates (kind : string) (data : pyval)
    (created : pyfloat) (origin : option AgentType) (prio : Z) :
  (valid_fields kind data prio <->
     SystemEvent_new kind data created origin prio
       = Ok (mkSystemEvent kind data created origin prio))
  /\ (~ valid_fields kind data prio <->
     exists msg,
       SystemEvent_new kind data created origin prio = Raise (Exn ValueError msg))
  /\ (forall event,
     SystemEvent_new kind data created origin prio = Ok event ->
     valid_fields (type event) (payload event) (priority event)).
Proof.
  assert (Hcases :
    (valid_fields kind data prio
       /\ SystemEvent_new kind data created origin prio
            = Ok (mkSystemEvent kind data created origin prio))
    \/ (~ valid_fields kind data prio
       /\ exists msg,
            SystemEvent_new kind data created origin prio
              = Raise (Exn ValueError msg))).
  { unfold SystemEvent_new, valid_fields.
    case_bool_decide as Hkind; [right; split; [tauto | eauto] |].
    destruct (isinstance_dict data); simpl;
      [| right; split; [intros (_ & ? & _); discriminate | eauto]].
    destruct (Z.leb_spec 1 prio), (Z.leb_spec prio 10); simpl;
      first [ left; split; [repeat split; (done || lia) | done]
            | right; split; [lia | eauto] ]. }
  destruct Hcases as [[Hvalid Hrun]|[Hinvalid [msg Hrun]]]; rewrite Hrun.
  - split; [tauto|]. split.
    + split; [tauto | intros [? ?]; discriminate].
    + intros event [= <-]. exact Hvalid.
  - split; [split; [tauto | discriminate] |]. split.
    + split; eauto.
    + intros event ?; discriminate.
Qed.

(** The two priorities just outside the range, for any other fields. *)
Example priority_0_and_11_rejected (kind : string) (data : pyval)
    (created : pyfloat) (origin : option AgentType) :
  kind <> "" -> isinstance_dict data = true ->
  SystemEvent_new kind data created origin 0
    = Raise (Exn ValueError "Priority must be between 1 and 10")
  /\ SystemEvent_new kind data created origin 11
    = Raise (Exn ValueError "Priority must be between 1 and 10").
Proof.
  intros Hkind Hdict. unfold SystemEvent_new.
  rewrite bool_decide_false, Hdict by done. done.
Qed.

(** ** Dictionaries *)

Section dict_facts.
Context {K V : Type} `{EqDecision K}.
Implicit Types (d new : list (K * V)).

Lemma dict_get_None k d : dict_get k d = None <-> k ∉ d.*1.
Proof.
  induction d as [|[k' v] d IH]; csimpl.
  - split; [intros _; apply not_elem_of_nil | done].
  - rewrite not_elem_of_cons. destruct (decide (k = k')) as [->|Hne].
    + split; [discriminate | intros [? _]; done].
    + rewrite IH. tauto.
Qed.

Lemma dict_get_set k k' v d :
  dict_get k (dict_set k' v d) = if decide (k = k') then Some v else dict_get k d.
Proof.
  induction d as [|[k1 v1] d IH]; simpl.
  - by destruct (decide (k = k')).
  - destruct (decide (k' = k1)) as [->|Hne]; simpl.
    + by destruct (decide (k = k1)).
    + rewrite IH. destruct (decide (k = k1)) as [->|]; [|done].
      by rewrite decide_False.
Qed.

Lemma dict_set_fresh k v d : k ∉ d.*1 -> dict_set k v d = d ++ [(k, v)].
Proof.
  induction d as [|[k1 v1] d IH]; csimpl; [done|].
  rewrite not_elem_of_cons. intros [Hne Hnotin].
  rewrite decide_False by done. by rewrite IH.
Qed.

Lemma dict_set_keys k v d :
  dict_keys (dict_set k v d) = if dict_in k d then dict_keys d else dict_keys d ++ [k].
Proof.
  unfold dict_keys, dict_in.
  induction d as [|[k1 v1] d IH]; csimpl; [done|].
  destruct (decide (k = k1)) as [->|Hne]; csimpl; [done|].
  rewrite IH. by destruct (dict_get k d).
Qed.

(** Assigning pairs with fresh, distinct keys appends them. *)
Lemma dict_update_fresh d new :
  NoDup ((d ++ new).*1) -> dict_update d new = d ++ new.
Proof.
  unfold dict_update. revert d.
  induction new as [|[k v] new IH]; intros d Hnodup; simpl.
  - by rewrite app_nil_r.
  - rewrite dict_set_fresh.
    + rewrite IH; rewrite <- app_assoc; done.
    + rewrite fmap_app in Hnodup. apply NoDup_app in Hnodup as (_ & Hdisj & _).
      intros Hin. apply (Hdisj k Hin). simpl. left.
Qed.

Lemma dict_of_pairs_NoDup (kvs : list (K * V)) :
  NoDup kvs.*1 -> dict_of_pairs kvs = kvs.
Proof. intros Hnodup. unfold dict_of_pairs. by rewrite dict_update_fresh. Qed.

Lemma dict_in_keys k d : dict_in k d = true <-> k ∈ dict_keys d.
Proof.
  unfold dict_in, dict_keys. pose proof (dict_get_None k d) as Hnone.
  destruct (dict_get k d) eqn:Hget.
  - split; [intros _|done]. destruct (decide (k ∈ d.*1)) as [|Hnotin]; [done|].
    apply Hnone in Hnotin. discriminate.
  - split; [discriminate|]. intros Hin. by apply Hnone in Hin.
Qed.

Lemma elem_of_dict_set_keys k' k v d :
  k' ∈ dict_keys (dict_set k v d) <-> k' = k \/ k' ∈ dict_keys d.
Proof.
  rewrite dict_set_keys. destruct (dict_in k d) eqn:Hin.
  - apply dict_in_keys in Hin. split; [by right|]. by intros [->|].
  - rewrite elem_of_app, list_elem_of_singleton. tauto.
Qed.

Lemma NoDup_dict_set_keys k v d :
  NoDup (dict_keys d) -> NoDup (dict_keys (dict_set k v d)).
Proof.
  intros Hnodup. rewrite dict_set_keys. destruct (dict_in k d) eqn:Hin; [done|].
  apply NoDup_app. split; [done|]. split; [|apply NoDup_singleton].
  intros k' Hk' ->%list_elem_of_singleton.
  apply dict_in_keys in Hk'. congruence.
Qed.

Lemma elem_of_dict_update_keys k d new :
  k ∈ dict_keys (dict_update d new) <-> k ∈ dict_keys d \/ k ∈ dict_keys new.
Proof.
  unfold dict_update. revert d.
  induction new as [|[k1 v1] new IH]; intros d; simpl.
  - change (dict_keys []) with (@nil K). rewrite elem_of_nil. tauto.
  - rewrite IH, elem_of_dict_set_keys.
    change (dict_keys ((k1, v1) :: new)) with (k1 :: dict_keys new).
    rewrite elem_of_cons. tauto.
Qed.

Lemma NoDup_dict_update_keys d new :
  NoDup (dict_keys d) -> NoDup (dict_keys (dict_update d new)).
Proof.
  unfold dict_update. revert d.
  induction new as [|[k1 v1] new IH]; intros d Hnodup; simpl; [done|].
  by apply IH, NoDup_dict_set_keys.
Qed.

Lemma dict_remove_keys k d : dict_keys (dict_remove k d) ⊆ dict_keys d.
Proof.
  unfold dict_keys. induction d as [|[k1 v1] d IH]; csimpl; [done|].
  destruct (decide (k = k1)); csimpl.
  - intros k' Hin. by right.
  - intros k' [->|Hin]%elem_of_cons; [left|right]. by apply IH.
Qed.

Lemma dict_get_remove k d :
  NoDup (dict_keys d) -> dict_get k (dict_remove k d) = None.
Proof.
  unfold dict_keys. induction d as [|[k1 v1] d IH]; csimpl; [done|].
  intros [Hnotin Hnodup]%NoDup_cons.
  destruct (decide (k = k1)) as [->|Hne]; simpl.
  - by apply dict_get_None.
  - rewrite decide_False by done. by apply IH.
Qed.

Lemma NoDup_dict_remove_keys k d :
  NoDup (dict_keys d) -> NoDup (dict_keys (dict_remove k d)).
Proof.
  unfold dict_keys. induction d as [|[k1 v1] d IH]; csimpl; [done|].
  intros [Hnotin Hnodup]%NoDup_cons.
  destruct (decide (k = k1)) as [->|Hne]; csimpl; [done|].
  apply NoDup_cons. split; [|by apply IH].
  intros Hin. apply Hnotin. by apply (dict_remove_keys k d).
Qed.

(** After a merge, a key of the merged dict has its value from there and
    any other key keeps its own. *)
Lemma dict_get_update k d new :
  NoDup new.*1 ->
  dict_get k (dict_update d new) =
    match dict_get k new with Some v => Some v | None => dict_get k d end.
Proof.
  unfold dict_update. revert d.
  induction new as [|[k1 v1] new IH]; intros d Hnodup; simpl; [done|].
  csimpl in Hnodup. apply NoDup_cons in Hnodup as [Hnotin Hnodup].
  rewrite IH by done. rewrite dict_get_set.
  destruct (decide (k = k1)) as [->|Hne]; [|done].
  apply dict_get_None in Hnotin. by rewrite Hnotin.
Qed.
End dict_facts.

(** ** Values that survive JSON *)

Lemma reread_free (s : string) :
  surrogate_pair_free s = true -> json.reread s = s.
Proof.
  induction s as [|a t IH]; [done|].
  intros Hfree. apply andb_prop in Hfree as [Hhead Hrest].
  apply negb_true_iff in Hhead. specialize (IH Hrest).
  assert (Hstep : json.reread (String a t) = String a (json.reread t)).
  { destruct t as [|b [|c [|d [|e [|f rest]]]]]; try reflexivity.
    change (json.reread (String a (String b (String c (String d (String e (String f rest)))))))
      with (if json.is_high a b && json.is_low d e
            then json.joined b c e f +:+ json.reread rest
            else String a (json.reread (String b (String c (String d (String e (String f rest))))))).
    simpl in Hhead. by rewrite Hhead. }
  by rewrite Hstep, IH.
Qed.

(** A native value is written without an error, and what is read back from
    the document is the value. *)
Lemma decode_encode (lim : json.limits) (room : nat) (v : pyval) :
  json_native lim room v = true ->
  exists d, json.encode lim room v = Ok d /\ json.decode d = v.
Proof.
  revert room.
  induction v as [ | | | | |xs IH|xs IH|kvs IH| | ] using pyval_nested_ind;
    intros room Hnative; cbn [json_native] in Hnative;
    try discriminate Hnative.
  - by exists json.JNull.
  - by exists (json.JBool b).
  - exists (json.JInt z). cbn [json.encode json.decode map json.all_ok]. by rewrite Hnative.
  - exists (json.JFloat f). cbn [json.encode json.decode map json.all_ok]. apply negb_true_iff in Hnative.
    by rewrite Hnative.
  - exists (json.JString s). cbn [json.encode json.decode map json.all_ok]. by rewrite reread_free.
  - (* lists *)
    destruct room as [|room']; [done|]. cbn [json.encode json.decode map json.all_ok].
    assert (Hall : exists ds,
              json.all_ok (map (json.encode lim room') xs) = Ok ds
              /\ map json.decode ds = xs).
    { induction IH as [|x xs Hx _ IHxs]; [by exists []|]. cbn [forallb] in Hnative.
      apply andb_prop in Hnative as [Hx' Hxs].
      destruct (Hx room' Hx') as (d & Hd & Hback).
      destruct (IHxs Hxs) as (ds & Hds & Hbacks).
      exists (d :: ds). cbn [json.encode json.decode map json.all_ok]. by rewrite Hd, Hds, Hback, Hbacks. }
    destruct Hall as (ds & Hds & Hback). exists (json.JArray ds).
    rewrite Hds. cbn [json.encode json.decode map json.all_ok]. by rewrite Hback.
  - (* dicts *)
    destruct room as [|room']; [done|]. cbn [json.encode json.decode map json.all_ok].
    apply andb_prop in Hnative as [Hkeys Hvalues].
    apply bool_decide_eq_true in Hkeys.
    assert (Hall : exists members,
              json.all_ok
                (map (fun '(k, x) =>
                        match json.encode lim room' x with
                        | Ok d => Ok (json.reread k, d)
                        | Raise e => Raise e
                        end) kvs) = Ok members
              /\ map (fun '(k, x) => (k, json.decode x)) members = kvs).
    { clear Hkeys. induction IH as [|[k x] kvs Hx _ IHkvs]; [by exists []|].
      cbn [forallb] in Hvalues. apply andb_prop in Hvalues as [Hkx Hkvs].
      apply andb_prop in Hkx as [Hk Hx']. cbn [snd] in Hx.
      destruct (Hx room' Hx') as (d & Hd & Hback).
      destruct (IHkvs Hkvs) as (members & Hmembers & Hbacks).
      exists ((k, d) :: members). cbn [json.encode json.decode map json.all_ok].
      by rewrite Hd, Hmembers, (reread_free k Hk), Hback, Hbacks. }
    destruct Hall as (members & Hmembers & Hback). exists (json.JObject members).
    rewrite Hmembers. cbn [json.encode json.decode map json.all_ok]. rewrite Hback. split; [done|].
    f_equal. by apply dict_of_pairs_NoDup.
Qed.

(** ** The context store *)

Section store.
Context {Ext : Type}.
Implicit Types (c st : shared_context.SharedContextManager) (w : World Ext).

Lemma store_update_run new_data c w :
  shared_context.update new_data c w = (updated new_data (clock w) c, tick 1 w, Ok tt).
Proof.
  unfold shared_context.update, shared_context._log_update.
  unfold bind at 1. unfold get_self at 1.
  unfold bind at 1. unfold set_self at 1.
  unfold bind at 1. unfold datetime_now at 1.
  unfold bind at 1. unfold get_self at 1.
  by rewrite store_add_to_history_run.
Qed.

Lemma store_import_document_run (data : list (string * pyval)) (d : json.doc) c w :
  json.decode d = VDict data ->
  shared_context.import_from_json (json.Document d) c w =
    (updated data (clock w) c,
     printed ("✓ Imported " +:+ pretty (length data) +:+ " keys from JSON") (tick 1 w),
     Ok tt).
Proof.
  intros Hdecode. unfold shared_context.import_from_json.
  apply try_except_ok.
  unfold bind at 1, pure_call. simpl. rewrite Hdecode.
  by erewrite bind_ok by apply store_update_run.
Qed.

Lemma store_import_malformed_run (s why : string) c w :
  shared_context.import_from_json (json.Malformed s why) c w =
    (c, printed ("✗ Failed to import JSON: " +:+ why) w, Ok tt).
Proof.
  unfold shared_context.import_from_json.
  erewrite try_except_caught
    with (e := Exn JSONDecodeError why) (s' := c) (w' := w);
    [reflexivity | by apply bind_raise | reflexivity].
Qed.

Lemma store_import_refused_run (s : string) (valid : bool) (e : exn) c w :
  shared_context.import_from_json (json.Refused s valid e) c w =
    if is_JSONDecodeError e
    then (c, printed ("✗ Failed to import JSON: " +:+ str_exn e) w, Ok tt)
    else (c, w, Raise e).
Proof.
  unfold shared_context.import_from_json, try_except, bind, pure_call. simpl.
  by destruct (is_JSONDecodeError e).
Qed.

(** C10, as amended.  A text on which [json.loads] raises a
    [JSONDecodeError] is reported on the standard output and nowhere else:
    the call returns normally, and the store, its change history included,
    is the one it was.  When the decoder raises an error of another class,
    as it does on nesting deeper than it has room for, that error reaches
    the caller and nothing is printed; the store is the one it was then,
    too. *)
Theorem import_from_json_invalid_is_noop (json_str : json.text) (e : exn) c w :
  json.loads json_str = Raise e ->
  shared_context.import_from_json json_str c w =
    if is_JSONDecodeError e
    then (c, printed ("✗ Failed to import JSON: " +:+ str_exn e) w, Ok tt)
    else (c, w, Raise e).
Proof.
  intros Hloads.
  destruct json_str as [d|s why|s valid e0]; simpl in Hloads; [discriminate| |].
  - injection Hloads as <-. apply store_import_malformed_run.
  - injection Hloads as <-. apply store_import_refused_run.
Qed.

(** C8, as amended.  When every value of a store comes back from JSON as it
    went (no tuple or other object, no NaN, no integer beyond the digits the
    interpreter converts, no pair of adjacent lone surrogates in a string,
    no nesting deeper than the encoder has room for), [export_to_json]
    returns a text, and where the decoder reads that text (it does, unless
    its own limits are lower than the encoder's were), importing it merges
    exactly the keys and values of the store into the importing store: a key
    of the exported store gets the exported value, any other key keeps what
    it had, and a store that was empty ends with the very keys and values of
    the exported one. *)
Theorem export_import_round_trip (lim : json.limits) st c w :
  json_native lim (json.room lim) (VDict (shared_context._context st)) = true ->
  exists d c' w',
    shared_context.export_to_json lim st = Ok d
    /\ shared_context.import_from_json (json.Document d) c w = (c', w', Ok tt)
    /\ shared_context._context c'
       = dict_update (shared_context._context c) (shared_context._context st)
    /\ (forall k,
          dict_get k (shared_context._context c')
          = match dict_get k (shared_context._context st) with
            | Some v => Some v
            | None => dict_get k (shared_context._context c)
            end)
    /\ (shared_context._context c = [] ->
        shared_context._context c' = shared_context._context st).
Proof.
  intros Hnative. unfold shared_context.export_to_json, json.dumps.
  destruct (decode_encode _ _ _ Hnative) as (d & Hencode & Hdecode).
  destruct (json.room lim) as [|room']; [discriminate Hnative|].
  cbn [json_native] in Hnative. apply andb_prop in Hnative as [Hkeys _].
  apply bool_decide_eq_true in Hkeys.
  exists d. do 2 eexists. split; [exact Hencode|].
  split; [by apply store_import_document_run|]. simpl.
  split; [done|]. split.
  - intros k. by apply dict_get_update.
  - intros ->. by apply dict_update_fresh.
Qed.
End store.

(** ** Basic operations of the store *)

Section store_basics.
Context {Ext : Type}.
Implicit Types (c : shared_context.SharedContextManager) (w : World Ext).

Lemma store_set_run (key : string) (value : pyval) c w :
  shared_context.set key value c w =
    (shared_context.with_history
       (keep_last (shared_context._max_history_size c)
          (shared_context._history c
             ++ [shared_context.LogSet (clock w) key
                   (match dict_get key (shared_context._context c) with
                    | None | Some VNone => false
                    | Some _ => true
                    end)]))
       (shared_context.with_context
          (dict_set key value (shared_context._context c)) c),
     tick 1 w, Ok tt).
Proof.
  unfold shared_context.set, shared_context._log_change.
  unfold bind at 1, get_self at 1. unfold bind at 1, set_self at 1.
  unfold bind at 1, datetime_now at 1. by rewrite store_add_to_history_run.
Qed.

Lemma store_delete_run (key : string) c w :
  shared_context.delete key c w =
    match dict_get key (shared_context._context c) with
    | Some _ =>
        (shared_context.with_history
           (keep_last (shared_context._max_history_size c)
              (shared_context._history c ++ [shared_context.LogDelete (clock w) key]))
           (shared_context.with_context
              (dict_remove key (shared_context._context c)) c),
         tick 1 w, Ok true)
    | None => (c, w, Ok false)
    end.
Proof.
  unfold shared_context.delete. unfold bind at 1, get_self at 1.
  destruct (dict_get key (shared_context._context c)); [|done].
  unfold shared_context._log_deletion.
  unfold bind at 1, set_self at 1. unfold bind at 1. unfold bind at 1.
  unfold datetime_now at 1. by rewrite store_add_to_history_run.
Qed.

Lemma store_clear_run c w :
  shared_context.clear c w =
    (shared_context.with_history
       (keep_last (shared_context._max_history_size c)
          (shared_context._history c ++ [shared_context.LogClear (clock w) 0]))
       (shared_context.with_context [] c),
     printed "✓ Shared context cleared" (tick 1 w), Ok tt).
Proof.
  unfold shared_context.clear, shared_context._log_clear.
  unfold bind at 1, get_self at 1. unfold bind at 1, set_self at 1.
  unfold bind at 1. unfold bind at 1, datetime_now at 1.
  unfold bind at 1, get_self at 1. by rewrite store_add_to_history_run.
Qed.

(** [set(k, v)] then [get(k)] returns [v]. *)
Lemma set_then_get (key : string) (value default : pyval) c w :
  exists c' w',
    shared_context.set key value c w = (c', w', Ok tt)
    /\ shared_context.get c' key default = value
    /\ shared_context.has c' key = true.
Proof.
  rewrite store_set_run. do 2 eexists. split; [reflexivity|].
  unfold shared_context.get, shared_context.has, dict_in. simpl.
  rewrite dict_get_set, decide_True by done. done.
Qed.

(** [delete(k)] then [get(k, default)] returns [default] and [has(k)] is
    false; the call tells whether the key was there. *)
Lemma delete_then_get (key : string) (default : pyval) c w :
  NoDup (dict_keys (shared_context._context c)) ->
  exists c' w',
    shared_context.delete key c w = (c', w', Ok (shared_context.has c key))
    /\ shared_context.get c' key default = default
    /\ shared_context.has c' key = false.
Proof.
  intros Hnodup. rewrite store_delete_run.
  unfold shared_context.get, shared_context.has, dict_in.
  destruct (dict_get key (shared_context._context c)) as [value|] eqn:Hget.
  - do 2 eexists. split; [reflexivity|]. simpl. by rewrite dict_get_remove.
  - do 2 eexists. split; [reflexivity|]. by rewrite Hget.
Qed.

(** The keys of a store stay distinct under every operation that writes. *)
Lemma store_keys_distinct (key : string) (value : pyval)
    (new_data : list (string * pyval)) (json_str : json.text) c w :
  NoDup (dict_keys (shared_context._context c)) ->
  NoDup (dict_keys (shared_context._context (shared_context.set key value c w).1.1))
  /\ NoDup (dict_keys (shared_context._context (shared_context.update new_data c w).1.1))
  /\ NoDup (dict_keys (shared_context._context (shared_context.delete key c w).1.1))
  /\ NoDup (dict_keys (shared_context._context (shared_context.clear c w).1.1))
  /\ NoDup (dict_keys
              (shared_context._context
                 (shared_context.import_from_json json_str c w).1.1)).
Proof.
  intros Hnodup. repeat split.
  - rewrite store_set_run. simpl. by apply NoDup_dict_set_keys.
  - rewrite store_update_run. simpl. by apply NoDup_dict_update_keys.
  - rewrite store_delete_run.
    destruct (dict_get key (shared_context._context c)); [|done].
    simpl. by apply NoDup_dict_remove_keys.
  - rewrite store_clear_run. simpl. apply NoDup_nil_2.
  - destruct json_str as [d|s why|s valid e];
      [|by rewrite store_import_malformed_run
       |by rewrite store_import_refused_run; destruct (is_JSONDecodeError e)].
    destruct (json.decode d) as [ | | | | | | |data| | ] eqn:Hdecode;
      try (unfold shared_context.import_from_json, try_except, bind, pure_call;
           simpl; rewrite Hdecode; done).
    erewrite store_import_document_run by done. simpl.
    by apply NoDup_dict_update_keys.
Qed.
End store_basics.

(** ** The bus *)

Section bus.
Context {Ext : Type}.
Implicit Types (b : event_bus.EventBus Ext) (w : World Ext) (h : Callable Ext).

Lemma notify_run event_type p h b w :
  event_bus.notify event_type p h b w = (b, after_handler event_type p w h, Ok tt).
Proof.
  unfold event_bus.notify, try_except, after_handler, any_Exception.
  destruct (iscoroutinefunction h).
  - unfold create_task. by destruct (loop w).
  - unfold call_sync. by destruct (call h p (ext w)) as [x [[]|e]].
Qed.

Lemma publish_run event_type p b w :
  event_bus.publish event_type p b w =
    (event_bus.with_event_log
       (keep_last (event_bus._max_log_size b)
          (event_bus._event_log b
             ++ [event_bus.mkLogEntry (clock w) event_type
                   (event_bus._summarize_payload p)])) b,
     fold_left (after_handler event_type p)
       (event_bus.subscribers_of b event_type) (tick 1 w),
     Ok tt).
Proof.
  unfold event_bus.publish.
  erewrite bind_ok by apply bus_log_event_run.
  unfold bind, get_self.
  set (b1 := event_bus.with_event_log _ b).
  change (event_bus.subscribers_of b1 event_type)
    with (event_bus.subscribers_of b event_type).
  generalize (event_bus.subscribers_of b event_type) (tick 1 w).
  intros hs. induction hs as [|h hs IH]; intros w1; [done|].
  simpl. erewrite bind_ok by apply notify_run. apply IH.
Qed.




End bus.

(** ** The orchestrator *)

Section orchestrator.
Context {Ext : Type}.
Implicit Types (m : mcp.MasterControlProgram Ext) (w : World Ext).
Implicit Types (event : SystemEvent) (a : mcp.Agent).

Lemma await_run {Self A} (results : A) (s : Self) w :
  await results s w = (s, drained w, Ok results).
Proof. unfold await, drained. by destruct (loop w). Qed.

Lemma clock_drained w : clock (drained w) = clock w.
Proof. unfold drained. by destruct (loop w). Qed.

Lemma stdout_drained w : stdout (drained w) = stdout w.
Proof. unfold drained. by destruct (loop w). Qed.

Lemma publish_ok event m w :
  event_bus.publish (type event) (PEvent event) (mcp.event_bus m) w
  = ((after_publish event m w).1, (after_publish event m w).2, Ok tt).
Proof. unfold after_publish. by rewrite publish_run. Qed.

(** [process_event], step by step. *)
Lemma process_event_run event m w :
  mcp.process_event event m w =
    let m1 := mcp.with_event_bus (after_publish event m w).1 (recorded event m) in
    let w1 := (after_publish event m w).2 in
    match mcp._determine_relevant_agents m event with
    | [] => (m1, w1, Ok (no_agents_outcome event))
    | relevant =>
        let processed := aggregated relevant event in
        (mcp.with_shared_context
           (updated (summary event processed) (clock w1) (mcp.shared_context m)) m1,
         tick 1 (drained w1),
         Ok (success_outcome event (len relevant) processed))
    end.
Proof.
  unfold mcp.process_event.
  erewrite bind_ok by apply mcp_add_to_history_run.
  erewrite bind_ok by (apply on_attr_run; apply (publish_ok event m w)).
  destruct (after_publish event m w) as [b1 w1].
  unfold bind at 1, get_self at 1. simpl.
  change (mcp._determine_relevant_agents (mcp.with_event_bus b1 _) event)
    with (mcp._determine_relevant_agents m event).
  destruct (mcp._determine_relevant_agents m event) as [|a relevant] eqn:Hrel;
    [done|].
  apply try_except_ok.
  erewrite bind_ok by apply await_run.
  erewrite bind_ok by (apply on_attr_run; apply store_update_run).
  by rewrite clock_drained.
Qed.

(** [process_event] never raises, and what it leaves of the orchestrator
    apart from the bus and the store is the history with one more event. *)
Lemma process_event_ok event m w :
  exists m' w' r,
    mcp.process_event event m w = (m', w', Ok r)
    /\ mcp._event_history m'
       = keep_last (mcp._max_history_size m) (mcp._event_history m ++ [event])
    /\ mcp._max_history_size m' = mcp._max_history_size m
    /\ mcp.agents m' = mcp.agents m
    /\ mcp._routing_rules m' = mcp._routing_rules m.
Proof.
  rewrite process_event_run.
  destruct (mcp._determine_relevant_agents m event); simpl; eauto 10.
Qed.
End orchestrator.

(** ** Aggregation of the workers' results *)

(** Aggregation assigns each worker's entry under the name of its class, in
    the order of the workers. *)
Lemma aggregated_assigns (relevant : list mcp.Agent) (event : SystemEvent) :
  aggregated relevant event = dict_of_pairs (entries_of relevant event).
Proof.
  unfold aggregated, mcp._process_agent_results, mcp.gather, dict_of_pairs,
    dict_update, entries_of.
  generalize (@nil (string * pyval)).
  induction relevant as [|a relevant IH]; intros acc; simpl; [done|].
  rewrite <- IH. unfold mcp.record_result. by destruct (mcp.process a event).
Qed.

Lemma aggregated_keys (relevant : list mcp.Agent) (event : SystemEvent) (k : string) :
  k ∈ dict_keys (aggregated relevant event)
  <-> exists a, a ∈ relevant /\ mcp.class_name a = k.
Proof.
  rewrite aggregated_assigns. unfold dict_of_pairs.
  rewrite elem_of_dict_update_keys. change (dict_keys []) with (@nil string).
  rewrite elem_of_nil. unfold dict_keys, entries_of.
  rewrite <- list_fmap_compose. rewrite list_elem_of_fmap. simpl.
  split.
  - intros [[]|(a & -> & Ha)]. eauto.
  - intros (a & Ha & <-). right. eauto.
Qed.

Lemma aggregated_keys_NoDup (relevant : list mcp.Agent) (event : SystemEvent) :
  NoDup (dict_keys (aggregated relevant event)).
Proof.
  rewrite aggregated_assigns. apply NoDup_dict_update_keys. apply NoDup_nil_2.
Qed.



Section orchestrator_properties.
Context {Ext : Type}.
Implicit Types (m : mcp.MasterControlProgram Ext) (w : World Ext).
Implicit Types (event : SystemEvent) (a : mcp.Agent).

(** The resolved workers are the registered instances of the routed
    identities. *)
Lemma relevant_agents_registered m event a :
  a ∈ mcp._determine_relevant_agents m event
  <-> exists t, t ∈ routed m event /\ dict_get t (mcp.agents m) = Some a.
Proof. unfold mcp._determine_relevant_agents. apply list_elem_of_omap. Qed.

(** Nobody is resolved exactly when no routed identity is registered; a
    kind without an entry in the routing table is such a case. *)
Lemma resolves_to_nobody m event :
  mcp._determine_relevant_agents m event = []
  <-> forall t, t ∈ routed m event -> dict_get t (mcp.agents m) = None.
Proof.
  split.
  - intros Hnil t Ht. destruct (dict_get t (mcp.agents m)) as [a|] eqn:Hget; [|done].
    assert (Ha : a ∈ mcp._determine_relevant_agents m event)
      by (apply relevant_agents_registered; eauto).
    rewrite Hnil in Ha. by apply elem_of_nil in Ha.
  - intros Hnone.
    destruct (mcp._determine_relevant_agents m event) as [|a l] eqn:Hrel; [done|].
    assert (Ha : a ∈ mcp._determine_relevant_agents m event)
      by (rewrite Hrel; left).
    apply relevant_agents_registered in Ha as (t & Ht & Hget).
    rewrite (Hnone t Ht) in Hget. discriminate.
Qed.

Lemma unrouted_kind_resolves_to_nobody m event :
  dict_get (type event) (mcp._routing_rules m) = None ->
  mcp._determine_relevant_agents m event = [].
Proof.
  intros Hnone. apply resolves_to_nobody. unfold routed. rewrite Hnone.
  intros t Ht. by apply elem_of_nil in Ht.
Qed.

(** C4.  When nobody is resolved for the event, [process_event] returns the
    [no_agents] outcome, which names the kind of the event, and leaves the
    store as it was: no key is written, [last_<kind>] no more than another,
    and the change history gets no entry. *)
Theorem no_agents_leaves_store_unchanged event m w :
  mcp._determine_relevant_agents m event = [] ->
  exists m' w',
    mcp.process_event event m w = (m', w', Ok (no_agents_outcome event))
    /\ mcp.shared_context m' = mcp.shared_context m
    /\ dict_get ("last_" +:+ type event)
         (shared_context._context (mcp.shared_context m'))
       = dict_get ("last_" +:+ type event)
           (shared_context._context (mcp.shared_context m)).
Proof.
  intros Hnil. rewrite process_event_run, Hnil. simpl.
  do 2 eexists. split; [reflexivity|]. by split.
Qed.


(** C2, as amended.  The aggregated mapping is keyed by the class name of
    the workers: for the registered instances of the routed identities, and
    only for them, it has one entry per distinct class name.  An identity
    that is routed but not registered contributes no entry and no error;
    with two routed identities of which only the first is registered, the
    mapping is the one entry of that worker, under the name of its class. *)
Theorem results_keyed_by_class_name event m w :
  let relevant := mcp._determine_relevant_agents m event in
  relevant <> [] ->
  exists m' w' processed,
    mcp.process_event event m w
      = (m', w', Ok (success_outcome event (len relevant) processed))
    /\ (forall a, a ∈ relevant
          <-> exists t, t ∈ routed m event /\ dict_get t (mcp.agents m) = Some a)
    /\ NoDup (dict_keys processed)
    /\ (forall k,
          k ∈ dict_keys processed <-> exists a, a ∈ relevant /\ mcp.class_name a = k)
    /\ (forall A B a,
          routed m event = [A; B] ->
          dict_get A (mcp.agents m) = Some a ->
          dict_get B (mcp.agents m) = None ->
          processed = [(mcp.class_name a, entry_of (mcp.process a event))]).
Proof.
  intros relevant Hsome. rewrite process_event_run. fold relevant.
  destruct relevant as [|a0 rest] eqn:Hrel; [done|]. rewrite <- Hrel. simpl.
  do 3 eexists. split; [reflexivity|].
  split; [apply relevant_agents_registered|].
  split; [apply aggregated_keys_NoDup|].
  split; [apply aggregated_keys|].
  intros A B a Hrouted HA HB.
  assert (Hone : relevant = [a]).
  { unfold relevant, mcp._determine_relevant_agents. fold (routed m event).
    rewrite Hrouted. simpl. by rewrite HA, HB. }
  rewrite Hone. unfold aggregated. simpl. by destruct (mcp.process a event).
Qed.
End orchestrator_properties.

(** ** Retrieval of the history and statistics *)

Section history.
Context {Ext : Type}.
Implicit Types (m : mcp.MasterControlProgram Ext) (w : World Ext).

(** With a positive limit, [get_event_history] gives the last [limit]
    selected events, in the order of the history. *)
Lemma get_event_history_positive m event_type (limit : Z) :
  (0 < limit)%Z ->
  mcp.get_event_history m event_type limit
  = drop (length (matching m event_type) - Z.to_nat limit) (matching m event_type).
Proof.
  intros Hlimit. unfold mcp.get_event_history, matching.
  destruct event_type as [t|]; [case_bool_decide|]; by rewrite slice_from_neg.
Qed.

(** With limit 0 it gives all of them. *)
Lemma get_event_history_zero m event_type :
  mcp.get_event_history m event_type 0 = matching m event_type.
Proof.
  unfold mcp.get_event_history, matching.
  destruct event_type as [t|]; [case_bool_decide|]; done.
Qed.

Lemma process_events_history (events : list SystemEvent) m w :
  (0 < mcp._max_history_size m)%Z ->
  (len (mcp._event_history m) <= mcp._max_history_size m)%Z ->
  exists m' w',
    process_events events m w = (m', w', Ok tt)
    /\ mcp._event_history m'
       = keep_last (mcp._max_history_size m) (mcp._event_history m ++ events)
    /\ mcp._max_history_size m' = mcp._max_history_size m
    /\ mcp.agents m' = mcp.agents m
    /\ mcp._routing_rules m' = mcp._routing_rules m.
Proof.
  intros Hcap. revert m w Hcap.
  induction events as [|event events IH]; intros m w Hcap Hlen.
  - do 2 eexists. split; [reflexivity|].
    by rewrite app_nil_r, keep_last_id.
  - destruct (process_event_ok event m w)
      as (m1 & w1 & r & Hrun & Hhist & Hmax & Hagents & Hrules).
    destruct (IH m1 w1) as (m' & w' & Hrun' & Hhist' & Hmax' & Hagents' & Hrules').
    { by rewrite Hmax. }
    { rewrite Hmax, Hhist. unfold len. rewrite keep_last_length by done. lia. }
    exists m', w'. split.
    + unfold process_events. simpl.
      erewrite bind_ok by (erewrite bind_ok by apply Hrun; reflexivity).
      apply Hrun'.
    + rewrite Hhist', Hmax', Hagents', Hrules', Hmax, Hhist, Hagents, Hrules.
      rewrite keep_last_app by done. by rewrite <- app_assoc.
Qed.

(** After [N] events an orchestrator that started with an empty history of
    capacity 1000 reports [N] events or 1000 of them, whichever is less; the
    count and the names of the registered workers and the routable kinds are
    those it started with, and the size of the store is the current one. *)
Lemma stats_after_events (events : list SystemEvent) m w :
  mcp._event_history m = [] -> mcp._max_history_size m = 1000%Z ->
  exists m' w',
    process_events events m w = (m', w', Ok tt)
    /\ mcp.get_system_stats m'
       = [ ("registered_agents", VInt (len (mcp.agents m)));
           ("agent_types",
            VList (map (fun t => VStr (AgentType_name t)) (dict_keys (mcp.agents m))));
           ("total_events_processed", VInt (Z.of_nat (length events `min` 1000)));
           ("event_types", VList (map VStr (dict_keys (mcp._routing_rules m))));
           ("shared_context_keys",
            VInt (len (shared_context._context (mcp.shared_context m')))) ].
Proof.
  intros Hempty Hcap.
  destruct (process_events_history events m w)
    as (m' & w' & Hrun & Hhist & _ & Hagents & Hrules).
  { rewrite Hcap. done. }
  { rewrite Hempty, Hcap. done. }
  exists m', w'. split; [done|].
  unfold mcp.get_system_stats. rewrite Hagents, Hrules. unfold len at 2.
  rewrite Hhist, Hempty, Hcap. simpl. rewrite keep_last_length by done.
  do 7 f_equal.
Qed.
End history.

(** ** Concrete runs *)

(** C10, as amended, at a text the decoder rejects with a
    [JSONDecodeError], for a store that holds one key. *)
Lemma import_from_json_invalid_witness :
  json.loads (json.Malformed "{oops" "Expecting value")
    = Raise (Exn JSONDecodeError "Expecting value")
  /\ shared_context.import_from_json (json.Malformed "{oops" "Expecting value")
       (shared_context.with_context [("k", VInt 1)] shared_context.new) quiet
     = (shared_context.with_context [("k", VInt 1)] shared_context.new,
        printed "✗ Failed to import JSON: Expecting value" quiet, Ok tt).
Proof.
  split; [reflexivity|].
  apply (import_from_json_invalid_is_noop (json.Malformed "{oops" "Expecting value")
           (Exn JSONDecodeError "Expecting value")).
  reflexivity.
Defined.

(** C10, the claim as stated, fails: a text of 1100 opening brackets is not
    JSON, the decoder runs out of room before it finds that out, and its
    [RecursionError] is not caught: the call does not return normally. *)
Lemma deep_nesting_reaches_the_caller :
  let json_str := json.Refused (unclosed 1100) false out_of_room in
  let run := shared_context.import_from_json json_str small_store quiet in
  json.valid json_str = false
  /\ json.loads json_str = Raise out_of_room
  /\ run.2 = Raise out_of_room
  /\ ~ (exists c' w', run = (c', w', Ok tt)).
Proof.
  repeat split. intros (c' & w' & Hrun). discriminate Hrun.
Qed.

(** C8, as amended, at the store the orchestrator leaves after one event,
    imported into a new store. *)
Lemma export_import_round_trip_witness :
  json_native usual (json.room usual)
    (VDict (shared_context._context store_after_ping)) = true
  /\ exists d c' w',
      shared_context.export_to_json usual store_after_ping = Ok d
      /\ shared_context.import_from_json (json.Document d) shared_context.new quiet
         = (c', w', Ok tt)
      /\ shared_context._context c'
         = dict_update (shared_context._context shared_context.new)
             (shared_context._context store_after_ping)
      /\ (forall k,
            dict_get k (shared_context._context c')
            = match dict_get k (shared_context._context store_after_ping) with
              | Some v => Some v
              | None => dict_get k (shared_context._context shared_context.new)
              end)
      /\ (shared_context._context shared_context.new = [] ->
          shared_context._context c' = shared_context._context store_after_ping).
Proof.
  assert (Hnative : json_native usual (json.room usual)
                      (VDict (shared_context._context store_after_ping)) = true)
    by (vm_compute; reflexivity).
  split; [exact Hnative|].
  exact (export_import_round_trip usual store_after_ping shared_context.new quiet
           Hnative).
Defined.

(** C8, the claim as stated, fails: a tuple is exported as an array and comes
    back as a list, so it is not true that every key of the fresh store has
    the value it has in the exported one. *)
Lemma export_import_changes_a_tuple :
  let st := shared_context.with_context
              [("pair", VTuple [VInt 1; VInt 2])] shared_context.new in
  let d := json.JObject [("pair", json.JArray [json.JInt 1; json.JInt 2])] in
  let run := shared_context.import_from_json (json.Document d)
               shared_context.new quiet in
  shared_context.export_to_json usual st = Ok d
  /\ run.2 = Ok tt
  /\ dict_get "pair" (shared_context._context st) = Some (VTuple [VInt 1; VInt 2])
  /\ dict_get "pair" (shared_context._context run.1.1) = Some (VList [VInt 1; VInt 2])
  /\ ~ (forall k : string,
          dict_get k (shared_context._context run.1.1)
          = dict_get k (shared_context._context st)).
Proof.
  split; [vm_compute; reflexivity|].
  repeat split. intros Hsame. specialize (Hsame "pair"). discriminate Hsame.
Qed.

(** C4 at an orchestrator without workers. *)
Lemma no_agents_witness :
  mcp._determine_relevant_agents (registered []) email = []
  /\ exists m' w',
      mcp.process_event email (registered []) quiet
        = (m', w', Ok (no_agents_outcome email))
      /\ mcp.shared_context m' = mcp.shared_context (registered [])
      /\ dict_get ("last_" +:+ type email)
           (shared_context._context (mcp.shared_context m'))
         = dict_get ("last_" +:+ type email)
             (shared_context._context (mcp.shared_context (registered []))).
Proof.
  split; [reflexivity|].
  apply (no_agents_leaves_store_unchanged email (registered []) quiet).
  reflexivity.
Defined.



(** C2, as amended, at the routing of [email_received] with only the first
    identity registered. *)
Lemma results_keyed_by_class_name_witness :
  mcp._determine_relevant_agents one_worker email <> []
  /\ exists m' w' processed,
      mcp.process_event email one_worker quiet
        = (m', w', Ok (success_outcome email 1 processed))
      /\ processed = [("LaSecretaria", VDict [("echo", VDict [("n", VInt 1)])])].
Proof.
  assert (Hsome : mcp._determine_relevant_agents one_worker email <> [])
    by (vm_compute; discriminate).
  split; [exact Hsome|].
  destruct (results_keyed_by_class_name email one_worker quiet Hsome)
    as (m' & w' & processed & Hrun & _ & _ & _ & Hone).
  exists m', w', processed. split; [exact Hrun|].
  apply (Hone LA_SECRETARIA EL_CALENDISTA (echo "LaSecretaria")); reflexivity.
Defined.

(** C2, the claim as stated, fails: both routed identities are registered,
    with workers of one class, and the mapping has one entry, under the name
    of the class. *)
Lemma one_entry_for_two_identities :
  let m := registered [ (LA_SECRETARIA, echo "Worker");
                        (EL_CALENDISTA, echo "Worker") ] in
  let processed := [("Worker", VDict [("echo", payload email)])] in
  filter (fun t => dict_in t (mcp.agents m)) (routed m email)
    = [LA_SECRETARIA; EL_CALENDISTA]
  /\ (mcp.process_event email m quiet).2 = Ok (success_outcome email 2 processed)
  /\ length processed
     <> length (filter (fun t => dict_in t (mcp.agents m)) (routed m email)).
Proof. repeat split. discriminate. Qed.

(** C6 at 1001 events: the orchestrator has processed 1001 events and reports
    1000. *)
Theorem stats_total_stops_at_capacity :
  exists m' w',
    process_events (replicate 1001 email) mcp.new quiet = (m', w', Ok tt)
    /\ dict_get "total_events_processed" (mcp.get_system_stats m')
       = Some (VInt 1000).
Proof.
  destruct (stats_after_events (replicate 1001 email) mcp.new quiet)
    as (m' & w' & Hrun & Hstats); [done|done|].
  exists m', w'. split; [exact Hrun|].
  rewrite Hstats, length_replicate. reflexivity.
Qed.

(** C7 at limit 0: the history holds one event and all of it is returned,
    which is more than the limit. *)
Theorem get_event_history_limit_zero :
  let returned :=
    mcp.get_event_history (mcp.with_event_history [email] (registered [])) None 0 in
  returned = [email] /\ (0 < len returned)%Z.
Proof.
  intros returned. unfold returned. rewrite get_event_history_zero.
  split; reflexivity.
Qed.

(** A subscriber that raises stops neither [publish] nor the subscribers after
    it: all three have noted their names, the error was printed, and the
    publication is in the log of the bus. *)
Example raising_subscriber_is_contained :
  let run := event_bus.publish "topic" (PValue VNone) three_subscribers
               (mkWorld [] None [] 0) in
  run.2 = Ok tt
  /\ ext run.1.2 = ["first"; "second"; "third"]
  /\ stdout run.1.2 = ["✗ Error in subscriber for topic: second failed"]
  /\ map event_bus.event_type (event_bus._event_log run.1.1) = ["topic"].
Proof. repeat split. Qed.


(** One event, one registered worker of the two routed identities: the
    outcome, and the summary left in the store. *)
Example echo_end_to_end :
  let run := mcp.process_event email one_worker quiet in
  run.2
  = Ok [ ("status", VStr "success");
         ("event", VStr "email_received");
         ("agents_processed", VInt 1);
         ("results",
          VDict [("LaSecretaria", VDict [("echo", VDict [("n", VInt 1)])])]) ]
  /\ shared_context.get (mcp.shared_context run.1.1) "last_email_received" VNone
     = VDict [ ("timestamp", VFloat 17);
               ("results",
                VDict [("LaSecretaria", VDict [("echo", VDict [("n", VInt 1)])])]) ]
  /\ mcp._event_history run.1.1 = [email].
Proof. repeat split. Qed.

(** ** The logs in every state of the orchestrator *)

Section invariant.
Context {Ext : Type}.
Implicit Types (m : mcp.MasterControlProgram Ext) (w : World Ext).

Lemma keep_last_len {A} (cap : Z) (l : list A) :
  (0 < cap)%Z -> (len (keep_last cap l) <= cap)%Z.
Proof. intros Hcap. unfold len. rewrite keep_last_length by done. lia. Qed.

(** No call takes a log beyond its capacity or changes a capacity, whether
    the call returns or raises. *)
Lemma perform_keeps_logs_bounded (c : action) m w :
  logs_bounded m -> logs_bounded (perform c m w).1.1.
Proof.
  intros ((Hcap & Hlen) & (Hbcap & Hblen) & (Hscap & Hslen)).
  destruct c as [t a|event|t h|t p|key value|new_data|key| |json_str]; simpl.
  - done.
  - unfold bind. rewrite process_event_run.
    unfold after_publish, recorded, updated. rewrite publish_run.
    destruct (mcp._determine_relevant_agents m event); simpl;
      rewrite ?Hcap, ?Hbcap, ?Hscap;
      repeat split; try done; try (by apply keep_last_len).
  - done.
  - erewrite on_attr_run by apply publish_run. simpl. rewrite Hbcap.
    repeat split; try done. by apply keep_last_len.
  - erewrite on_attr_run by apply store_set_run. simpl. rewrite Hscap.
    repeat split; try done. by apply keep_last_len.
  - erewrite on_attr_run by apply store_update_run. unfold updated. simpl.
    rewrite Hscap.
    repeat split; try done. by apply keep_last_len.
  - unfold on_attr, bind. rewrite store_delete_run.
    destruct (dict_get key _); simpl; rewrite ?Hscap;
      repeat split; try done. by apply keep_last_len.
  - erewrite on_attr_run by apply store_clear_run. simpl. rewrite Hscap.
    repeat split; try done. by apply keep_last_len.
  - unfold on_attr.
    destruct json_str as [d|s why|s valid e];
      [|by rewrite store_import_malformed_run
       |by rewrite store_import_refused_run; destruct (is_JSONDecodeError e)].
    destruct (json.decode d) as [ | | | | | | |data| | ] eqn:Hdecode;
      try (unfold shared_context.import_from_json, try_except, bind, pure_call;
           simpl; rewrite Hdecode; done).
    erewrite store_import_document_run by done. unfold updated. simpl.
    rewrite Hscap. repeat split; try done. by apply keep_last_len.
Qed.

(** The logs of a new orchestrator are within their capacities, and they
    stay so under any sequence of calls, up to the first that raises. *)
Lemma logs_bounded_always (calls : list action) w :
  logs_bounded (for_each calls perform mcp.new w).1.1.
Proof.
  assert (Hnew : logs_bounded (mcp.new (Ext:=Ext))) by (by repeat split).
  revert Hnew. generalize (mcp.new (Ext:=Ext)). revert w.
  induction calls as [|c calls IH]; intros w m Hm; [done|].
  simpl. unfold bind. pose proof (perform_keeps_logs_bounded c m w Hm) as Hstep.
  destruct (perform c m w) as [[m1 w1] [[]|e]]; [by apply IH|done].
Qed.

(** C5.  Each of the three logs, filled from a new object by any number of
    appends, holds the entries appended without the oldest ones beyond its
    capacity (1000 events, 1000 changes, 10000 publications), in the order
    they were appended; so it never holds more than its capacity, holds exactly
    that many once more have been appended, and no append raises.  Nor does
    any sequence of calls on a new orchestrator, its bus and its store take
    one of the three logs beyond its capacity. *)
Theorem bounded_logs_keep_most_recent w :
  (forall events : list SystemEvent,
     exists m,
       for_each events mcp._add_to_history mcp.new w = (m, w, Ok tt)
       /\ mcp._event_history m = drop (length events - 1000) events
       /\ length (mcp._event_history m) = length events `min` 1000)
  /\ (forall entries : list shared_context.log_entry,
     exists c,
       for_each entries shared_context._add_to_history shared_context.new w
         = (c, w, Ok tt)
       /\ shared_context._history c = drop (length entries - 1000) entries
       /\ length (shared_context._history c) = length entries `min` 1000)
  /\ (forall pubs : list (string * Payload),
     exists b,
       for_each pubs (fun tp => event_bus._log_event tp.1 tp.2) event_bus.new w
         = (b, tick (length pubs) w, Ok tt)
       /\ event_bus._event_log b
          = drop (length pubs - 10000) (entries_from (clock w) pubs)
       /\ length (event_bus._event_log b) = length pubs `min` 10000)
  /\ (forall calls : list action,
     logs_bounded (for_each calls perform mcp.new w).1.1).
Proof.
  split; [|split; [|split]].
  - intros events. eexists. split; [by apply mcp_appends|]. simpl.
    rewrite keep_last_drop by done. split; [done|].
    rewrite length_drop. lia.
  - intros entries. eexists. split; [by apply store_appends|]. simpl.
    rewrite keep_last_drop by done. split; [done|].
    rewrite length_drop. lia.
  - intros pubs. replace 10000 with (Z.to_nat 10000) by (by vm_compute).
    eexists. split; [by apply bus_appends|]. simpl.
    rewrite keep_last_drop by done.
    rewrite entries_from_length. split; [done|].
    rewrite length_drop, entries_from_length. lia.
  - intros calls. apply logs_bounded_always.
Qed.

End invariant.

(** * Further properties of the three modules *)

(** ** Strings, lists and dictionaries *)

Lemma string_app_assoc (a b c : string) : (a +:+ b) +:+ c = a +:+ b +:+ c.
Proof.
  induction a as [|x a IH]; [done|].
  change (String x ((a +:+ b) +:+ c) = String x (a +:+ b +:+ c)).
  by rewrite IH.
Qed.

Lemma prefix_app (a b : string) : String.prefix a (a +:+ b) = true.
Proof.
  induction a as [|x a IH]; [by destruct b|].
  change (String.prefix (String x a) (String x (a +:+ b)) = true). simpl.
  destruct (Ascii.ascii_dec x x); [done|congruence].
Qed.

Lemma prefix_of_app (a b k : string) :
  String.prefix (a +:+ b) k = true -> String.prefix a k = true.
Proof.
  revert k. induction a as [|x a IH]; intros k; [by destruct k|].
  change (String x a +:+ b) with (String x (a +:+ b)).
  destruct k as [|y k]; simpl; [done|].
  destruct (Ascii.ascii_dec x y); [apply IH | done].
Qed.

Lemma filter_ext_elem {A} (P1 P2 : A -> Prop) `{!forall x, Decision (P1 x)}
    `{!forall x, Decision (P2 x)} (l : list A) :
  (forall x, x ∈ l -> P1 x <-> P2 x) -> filter P1 l = filter P2 l.
Proof.
  induction l as [|x l IH]; intros Hiff; [done|].
  rewrite !filter_cons.
  rewrite IH by (intros y Hy; apply Hiff; by right).
  pose proof (Hiff x (list_elem_of_here x l)) as Hx.
  destruct (decide (P1 x)), (decide (P2 x)); tauto || done.
Qed.

Lemma remove_dups_NoDup `{EqDecision A} (l : list A) :
  NoDup l -> remove_dups l = l.
Proof.
  induction 1 as [|x l Hnotin _ IH]; simpl; [done|].
  destruct (decide_rel elem_of x l); [done|]. by rewrite IH.
Qed.

Lemma omap_ext_elem {A B} (f g : A -> option B) (l : list A) :
  (forall x, x ∈ l -> f x = g x) -> omap f l = omap g l.
Proof.
  induction l as [|x l IH]; intros Hfg; [done|]. csimpl.
  rewrite (Hfg x) by left. rewrite IH; [done|].
  intros y Hy. apply Hfg. by right.
Qed.

Lemma omap_length_le {A B} (f : A -> option B) (l : list A) :
  length (omap f l) <= length l.
Proof.
  induction l as [|x l IH]; csimpl; [done|]. destruct (f x); simpl; lia.
Qed.

Lemma sum_from (ns : list Z) (z : Z) : fold_left Z.add ns z = (z + sum ns)%Z.
Proof.
  unfold sum. revert z. induction ns as [|n ns IH]; intros z; simpl; [lia|].
  rewrite (IH (z + n)%Z), (IH (0 + n)%Z). lia.
Qed.

Lemma sum_cons (n : Z) (ns : list Z) : sum (n :: ns) = (n + sum ns)%Z.
Proof. unfold sum at 1. simpl. apply sum_from. Qed.

Lemma slice_from_nonpos {A} (n : Z) (l : list A) :
  (n <= 0)%Z -> slice_from (- n) l = drop (Z.to_nat (- n)) l.
Proof.
  intros Hn. unfold slice_from.
  destruct (Z.ltb_spec (- n) 0) as [Hlt|_]; [lia|done].
Qed.

Lemma slice_from_last {A} (l : list A) (x : A) :
  slice_from (Z.opp 1) (l ++ [x]) = [x].
Proof.
  rewrite slice_from_neg by done. rewrite length_app. simpl.
  replace (length l + 1 - Z.to_nat 1) with (length l) by lia.
  by rewrite drop_app_length.
Qed.

(** A log that was just appended to ends with the new entry. *)
Lemma keep_last_snoc {A} (cap : Z) (l : list A) (x : A) :
  (0 < cap)%Z -> exists n, keep_last cap (l ++ [x]) = drop n l ++ [x].
Proof.
  intros Hcap. rewrite keep_last_drop by done. rewrite length_app. simpl.
  exists (length l + 1 - Z.to_nat cap). rewrite drop_app_le by lia. done.
Qed.

Lemma list_remove_found {A} (same : A -> A -> bool) (x : A) (l1 l2 : list A) (y : A) :
  (forall z, z ∈ l1 -> same z x = false) -> same y x = true ->
  list_remove same x (l1 ++ y :: l2) = Some (l1 ++ l2).
Proof.
  intros Hl1 Hy. induction l1 as [|z l1 IH]; simpl; [by rewrite Hy|].
  rewrite (Hl1 z) by left. rewrite IH; [done|].
  intros z' Hz'. apply Hl1. by right.
Qed.

Lemma list_remove_absent {A} (same : A -> A -> bool) (x : A) (l : list A) :
  (forall z, z ∈ l -> same z x = false) -> list_remove same x l = None.
Proof.
  intros Hl. induction l as [|z l IH]; simpl; [done|].
  rewrite (Hl z) by left. rewrite IH; [done|].
  intros z' Hz'. apply Hl. by right.
Qed.

(** Either some element is equal to [x], and there is a first such one, or
    none is. *)
Lemma list_remove_cases {A} (same : A -> A -> bool) (x : A) (l : list A) :
  (exists l1 y l2,
     l = l1 ++ y :: l2 /\ (forall z, z ∈ l1 -> same z x = false) /\ same y x = true)
  \/ (forall z, z ∈ l -> same z x = false).
Proof.
  induction l as [|z l IH].
  - right. intros z Hz. by apply elem_of_nil in Hz.
  - destruct (same z x) eqn:Hz.
    + left. exists [], z, l. split; [done|]. split; [|done].
      intros z' Hz'. by apply elem_of_nil in Hz'.
    + destruct IH as [(l1 & y & l2 & -> & Hl1 & Hy)|Hall].
      * left. exists (z :: l1), y, l2. split; [done|]. split; [|done].
        intros z' [->|Hz']%elem_of_cons; [done | by apply Hl1].
      * right. intros z' [->|Hz']%elem_of_cons; [done | by apply Hall].
Qed.

Section more_dict_facts.
Context {K V : Type} `{EqDecision K}.
Implicit Types (d new : list (K * V)).

Lemma dict_get_remove_ne k k' d :
  k <> k' -> dict_get k (dict_remove k' d) = dict_get k d.
Proof.
  intros Hne. induction d as [|[k1 v1] d IH]; simpl; [done|].
  destruct (decide (k' = k1)) as [->|Hne1]; simpl.
  - by rewrite decide_False.
  - by rewrite IH.
Qed.

Lemma dict_remove_length k d :
  dict_in k d = true -> length (dict_remove k d) = pred (length d).
Proof.
  unfold dict_in. induction d as [|[k1 v1] d IH]; simpl; [done|].
  destruct (decide (k = k1)) as [->|Hne]; simpl; [done|].
  intros Hin. rewrite IH by done.
  destruct d; [simpl in Hin; done|done].
Qed.

Lemma dict_set_length k v d :
  length (dict_set k v d) = if dict_in k d then length d else S (length d).
Proof.
  pose proof (dict_set_keys k v d) as Hkeys.
  apply (f_equal length) in Hkeys. unfold dict_keys in Hkeys.
  rewrite length_fmap in Hkeys. rewrite Hkeys.
  destruct (dict_in k d); rewrite ?length_app, !length_fmap; simpl; lia.
Qed.

Lemma dict_in_set k k' v d :
  dict_in k (dict_set k' v d) = if decide (k = k') then true else dict_in k d.
Proof. unfold dict_in. rewrite dict_get_set. by destruct (decide (k = k')). Qed.

(** A merge adds one pair for every key of [new] that [d] does not have. *)
Lemma dict_update_length d new :
  NoDup (dict_keys new) ->
  length (dict_update d new)
  = length d + length (filter (fun k => k ∉ dict_keys d) (dict_keys new)).
Proof.
  unfold dict_update, dict_keys. revert d.
  induction new as [|[k v] new IH]; intros d Hnodup; csimpl; [lia|].
  apply NoDup_cons in Hnodup as [Hnotin Hnodup].
  rewrite IH by done. rewrite dict_set_length, filter_cons. simpl.
  assert (Hfilter :
    filter (fun k0 => k0 ∉ (dict_set k v d).*1) new.*1
    = filter (fun k0 => k0 ∉ d.*1) new.*1).
  { apply filter_ext_elem. intros k0 Hk0.
    change ((dict_set k v d).*1) with (dict_keys (dict_set k v d)).
    rewrite elem_of_dict_set_keys. unfold dict_keys.
    split; [tauto|]. intros Hk0d [->|]; done. }
  rewrite Hfilter.
  destruct (dict_in k d) eqn:Hin.
  - apply dict_in_keys in Hin.
    rewrite decide_False by (unfold dict_keys in Hin; tauto). done.
  - rewrite decide_True; [simpl; lia|].
    intros Hk. apply (dict_in_keys k d) in Hk. congruence.
Qed.
End more_dict_facts.

Lemma dict_get_filter {V} (f : string -> bool) (k : string) (d : list (string * V)) :
  dict_get k (List.filter (fun '(key, _) => f key) d)
  = if f k then dict_get k d else None.
Proof.
  induction d as [|[k1 v1] d IH]; simpl; [by destruct (f k)|].
  destruct (f k1) eqn:Hk1; simpl.
  - destruct (decide (k = k1)) as [->|Hne]; [by rewrite Hk1 | done].
  - rewrite IH. destruct (decide (k = k1)) as [->|Hne]; [by rewrite Hk1 | done].
Qed.

(** ** Reading the store after a write *)

Section store_reads.
Context {Ext : Type}.
Implicit Types (c : shared_context.SharedContextManager) (w : World Ext).

(** X1.  After [set(key, value)], [get(key)] returns [value] whatever the
    default and [has(key)] is true; every other key reads as before.  A new
    key goes last in [keys()] and makes [size()] one more, an existing key
    keeps its place and the size stays.  The change history gets one entry,
    whose [had_previous_value] tells whether [get(key)] gave something other
    than [None] before: a key that held [None] counts as one without a
    previous value. *)
Theorem set_then_read (key : string) (value : pyval) c w :
  exists c',
    shared_context.set key value c w = (c', tick 1 w, Ok tt)
    /\ (forall default, shared_context.get c' key default = value)
    /\ shared_context.has c' key = true
    /\ (forall k default, k <> key ->
          shared_context.get c' k default = shared_context.get c k default
          /\ shared_context.has c' k = shared_context.has c k)
    /\ shared_context.keys c'
       = (if shared_context.has c key then shared_context.keys c
          else shared_context.keys c ++ [key])
    /\ shared_context.size c'
       = (if shared_context.has c key then shared_context.size c
          else shared_context.size c + 1)%Z
    /\ shared_context._history c'
       = keep_last (shared_context._max_history_size c)
           (shared_context._history c
              ++ [shared_context.LogSet (clock w) key
                    (match shared_context.get c key VNone with
                     | VNone => false
                     | _ => true
                     end)]).
Proof.
  rewrite store_set_run. eexists. split; [reflexivity|].
  unfold shared_context.get, shared_context.has, shared_context.keys,
    shared_context.size, len. simpl.
  split; [|split; [|split; [|split; [|split]]]].
  - intros default. by rewrite dict_get_set, decide_True.
  - by rewrite dict_in_set, decide_True.
  - intros k default Hne. by rewrite dict_in_set, dict_get_set, !decide_False.
  - apply dict_set_keys.
  - rewrite dict_set_length. destruct (dict_in key _); lia.
  - by destruct (dict_get key (shared_context._context c)) as [[]|].
Qed.

(** X2.  [delete(key)] returns whether the key was there.  Afterwards
    [has(key)] is false and [get(key, default)] gives the default, and every
    other key reads as before.  Deleting an absent key changes nothing, the
    history and the clock included; deleting a present one makes the size one
    less and adds one entry to the history. *)
Theorem delete_then_read (key : string) c w :
  NoDup (shared_context.keys c) ->
  exists c' w',
    shared_context.delete key c w = (c', w', Ok (shared_context.has c key))
    /\ shared_context.has c' key = false
    /\ (forall default, shared_context.get c' key default = default)
    /\ (forall k default, k <> key ->
          shared_context.get c' k default = shared_context.get c k default
          /\ shared_context.has c' k = shared_context.has c k)
    /\ (shared_context.has c key = false -> c' = c /\ w' = w)
    /\ (shared_context.has c key = true ->
        shared_context.size c' = (shared_context.size c - 1)%Z
        /\ w' = tick 1 w
        /\ shared_context._history c'
           = keep_last (shared_context._max_history_size c)
               (shared_context._history c
                  ++ [shared_context.LogDelete (clock w) key])).
Proof.
  intros Hnodup. rewrite store_delete_run.
  unfold shared_context.get, shared_context.has, shared_context.keys,
    shared_context.size, dict_in in *.
  destruct (dict_get key (shared_context._context c)) as [value|] eqn:Hget.
  - do 2 eexists. split; [reflexivity|]. simpl.
    rewrite dict_get_remove by done.
    split; [done|]. split; [done|]. split; [|split; [done|]].
    + intros k default Hne. by rewrite dict_get_remove_ne.
    + intros _. split; [|done]. unfold len. rewrite dict_remove_length.
      * destruct (shared_context._context c); [done|]. simpl length. lia.
      * unfold dict_in. by rewrite Hget.
  - do 2 eexists. split; [reflexivity|]. rewrite Hget.
    split; [done|]. split; [done|]. split; [done|]. split; done.
Qed.

(** X3.  [update(new_data)] merges: a key of [new_data] reads as its value
    there, any other key as before.  The entry it adds to the history lists
    the keys of [new_data] that were absent as added and those that were
    present as updated, with the size of the store after the merge, which
    is the size before plus the number of added keys. *)
Theorem update_then_read (new_data : list (string * pyval)) c w :
  NoDup (dict_keys new_data) ->
  exists c' added_keys updated_keys,
    shared_context.update new_data c w = (c', tick 1 w, Ok tt)
    /\ (forall k default,
          shared_context.get c' k default
          = match dict_get k new_data with
            | Some v => v
            | None => shared_context.get c k default
            end)
    /\ (forall k,
          shared_context.has c' k = shared_context.has c k || dict_in k new_data)
    /\ shared_context._history c'
       = keep_last (shared_context._max_history_size c)
           (shared_context._history c
              ++ [shared_context.LogUpdate (clock w) added_keys updated_keys
                    (shared_context.size c')])
    /\ (forall k, k ∈ added_keys
          <-> k ∈ dict_keys new_data /\ shared_context.has c k = false)
    /\ (forall k, k ∈ updated_keys
          <-> k ∈ dict_keys new_data /\ shared_context.has c k = true)
    /\ shared_context.size c' = (shared_context.size c + len added_keys)%Z.
Proof.
  intros Hnodup. rewrite store_update_run. unfold updated.
  rewrite (remove_dups_NoDup _ Hnodup).
  do 3 eexists. split; [reflexivity|].
  unfold shared_context.get, shared_context.has, shared_context.size, dict_in, len.
  simpl.
  split; [|split; [|split; [done|split; [|split]]]].
  - intros k default. rewrite dict_get_update by done.
    by destruct (dict_get k new_data).
  - intros k. rewrite dict_get_update by done.
    destruct (dict_get k new_data); [by rewrite orb_true_r | by rewrite orb_false_r].
  - intros k. rewrite list_elem_of_filter.
    pose proof (dict_in_keys k (shared_context._context c)) as Hin.
    unfold dict_in in Hin.
    destruct (dict_get k (shared_context._context c)).
    + split; [intros [Hk _]; exfalso; apply Hk; by apply Hin | intros [_ ?]; done].
    + split; [tauto|]. intros [Hk _]. split; [|done].
      intros Hk'. apply Hin in Hk'. done.
  - intros k. rewrite list_elem_of_filter.
    pose proof (dict_in_keys k (shared_context._context c)) as Hin.
    unfold dict_in in Hin.
    destruct (dict_get k (shared_context._context c)).
    + split; [tauto|]. intros [Hk _]. split; [by apply Hin | done].
    + split; [|intros [_ ?]; done]. intros [Hk _]. apply Hin in Hk. done.
  - rewrite dict_update_length by done. lia.
Qed.

(** X4.  [clear()] leaves an empty store: no key, size 0, every [get] gives
    its default.  It prints one line and adds one entry to the history, and
    that entry says 0 keys were cleared however many the store held: the
    keys are counted after they are gone. *)
Theorem clear_then_read c w :
  exists c',
    shared_context.clear c w
      = (c', printed "✓ Shared context cleared" (tick 1 w), Ok tt)
    /\ shared_context.get_all c' = []
    /\ shared_context.size c' = 0%Z
    /\ (forall k default,
          shared_context.has c' k = false
          /\ shared_context.get c' k default = default)
    /\ shared_context._history c'
       = keep_last (shared_context._max_history_size c)
           (shared_context._history c ++ [shared_context.LogClear (clock w) 0]).
Proof. rewrite store_clear_run. eexists. by repeat split. Qed.

(** X5.  [get_history(limit)] with a positive limit gives the last [limit]
    entries of the history, oldest first, or all of them when there are
    fewer.  With limit 0 it gives the whole history, and with a negative
    limit [-k] all but the [k] oldest entries.  Right after a [set],
    [get_history(1)] is the entry of that [set]. *)
Theorem get_history_gives_the_latest c (limit : Z) :
  let h := shared_context._history c in
  ((0 < limit)%Z ->
     shared_context.get_history c limit = drop (length h - Z.to_nat limit) h
     /\ length (shared_context.get_history c limit) = length h `min` Z.to_nat limit)
  /\ ((limit <= 0)%Z ->
      shared_context.get_history c limit = drop (Z.to_nat (- limit)) h)
  /\ ((0 < shared_context._max_history_size c)%Z ->
      forall key value w,
        shared_context.get_history (shared_context.set key value c w).1.1 1
        = [shared_context.LogSet (clock w) key
             (match shared_context.get c key VNone with
              | VNone => false
              | _ => true
              end)]).
Proof.
  intros h. unfold shared_context.get_history. fold h. split; [|split].
  - intros Hpos. rewrite slice_from_neg by done. split; [done|].
    rewrite length_drop. lia.
  - apply slice_from_nonpos.
  - intros Hcap key value w. rewrite store_set_run. simpl.
    destruct (keep_last_snoc (shared_context._max_history_size c) h
                (shared_context.LogSet (clock w) key
                   (match dict_get key (shared_context._context c) with
                    | None | Some VNone => false
                    | Some _ => true
                    end)) Hcap) as [n Hn].
    fold h. rewrite Hn.
    change (slice_from (- 1)) with (@slice_from shared_context.log_entry (Z.opp 1)).
    rewrite slice_from_last. unfold shared_context.get.
    by destruct (dict_get key (shared_context._context c)) as [[]|].
Qed.

(** X6.  What [set_namespaced(namespace, key, value)] stores,
    [get_namespaced(namespace, key)] returns, and [get_namespace(namespace)]
    lists it under the full key [namespace:key].  The listing of a namespace
    holds exactly the keys of the store that start with [namespace:], with
    their values; no other key of the store changes. *)
Theorem namespaced_round_trip (namespace key : string) (value : pyval) c w :
  exists c',
    shared_context.set_namespaced namespace key value c w = (c', tick 1 w, Ok tt)
    /\ (forall default,
          shared_context.get_namespaced c' namespace key default = value)
    /\ dict_get (namespace +:+ ":" +:+ key)
         (shared_context.get_namespace c' namespace)
       = Some value
    /\ (forall k,
          dict_get k (shared_context.get_namespace c' namespace)
          = if String.prefix (namespace +:+ ":") k
            then dict_get k (shared_context.get_all c')
            else None)
    /\ (forall k default, k <> namespace +:+ ":" +:+ key ->
          shared_context.get c' k default = shared_context.get c k default).
Proof.
  unfold shared_context.set_namespaced. rewrite store_set_run.
  eexists. split; [reflexivity|].
  unfold shared_context.get_namespaced, shared_context.get_namespace,
    shared_context.get, shared_context.get_all. simpl.
  split; [|split; [|split]].
  - intros default. by rewrite dict_get_set, decide_True.
  - rewrite dict_get_filter. rewrite <- string_app_assoc, prefix_app.
    by rewrite dict_get_set, decide_True.
  - intros k. apply dict_get_filter.
  - intros k default Hne. by rewrite dict_get_set, decide_False.
Qed.

(** X7.  Namespaces are prefixes of one flat key space, not separate
    spaces.  The key [key] of namespace [namespace:sub] is the key [sub:key]
    of namespace [namespace]; the listing of [namespace] contains the
    listing of [namespace:sub]; and a value set in [namespace:sub] shows in
    the listing of [namespace]. *)
Theorem namespaces_nest (namespace sub key : string) c :
  (forall default,
     shared_context.get_namespaced c (namespace +:+ ":" +:+ sub) key default
     = shared_context.get_namespaced c namespace (sub +:+ ":" +:+ key) default)
  /\ (forall kv,
        kv ∈ shared_context.get_namespace c (namespace +:+ ":" +:+ sub) ->
        kv ∈ shared_context.get_namespace c namespace)
  /\ (forall (value : pyval) (w : World Ext),
        dict_get (namespace +:+ ":" +:+ sub +:+ ":" +:+ key)
          (shared_context.get_namespace
             (shared_context.set_namespaced
                (namespace +:+ ":" +:+ sub) key value c w).1.1
             namespace)
        = Some value).
Proof.
  unfold shared_context.get_namespaced, shared_context.get_namespace.
  split; [|split].
  - intros default. by rewrite !string_app_assoc.
  - intros [k v]. rewrite !list_elem_of_In, !filter_In.
    intros [Hin Hprefix]. split; [done|].
    rewrite !string_app_assoc in Hprefix.
    rewrite <- string_app_assoc in Hprefix. by apply prefix_of_app in Hprefix.
  - intros value w. unfold shared_context.set_namespaced.
    rewrite store_set_run. simpl. rewrite dict_get_filter.
    rewrite !string_app_assoc.
    rewrite <- (string_app_assoc namespace ":"), prefix_app.
    by rewrite dict_get_set, decide_True.
Qed.

(** X8.  A text that is JSON but not an object (null, a boolean, a number,
    a string, an array) makes [import_from_json] raise, and the exception is
    not a [JSONDecodeError], so the [except] clause lets it through to the
    caller and nothing is printed.  Unless the text is an array, the store
    and the world are as they were. *)
Theorem import_of_a_non_object_raises (d : json.doc) c w :
  (forall members, d <> json.JObject members) ->
  exists e,
    (shared_context.import_from_json (json.Document d) c w).2 = Raise e
    /\ is_JSONDecodeError e = false
    /\ stdout (shared_context.import_from_json (json.Document d) c w).1.2 = stdout w
    /\ ((forall xs, d <> json.JArray xs) ->
        (shared_context.import_from_json (json.Document d) c w).1 = (c, w)).
Proof.
  intros Hd. unfold shared_context.import_from_json, try_except, bind, pure_call.
  destruct d as [ | | | | | |members]; simpl; eauto 10.
  by destruct (Hd members).
Qed.
End store_reads.

(** ** Subscribers of the bus *)

Section bus_subscribers.
Context {Ext : Type}.
Implicit Types (b : event_bus.EventBus Ext) (w : World Ext) (h : Callable Ext).
Implicit Types (subs : list (string * list (Callable Ext))).

Lemma total_subscribers_set t hs subs :
  total_subscribers (dict_set t hs subs)
  = (total_subscribers subs - len (default [] (dict_get t subs)) + len hs)%Z.
Proof.
  unfold total_subscribers.
  induction subs as [|[t1 hs1] subs IH]; simpl.
  - rewrite sum_cons. unfold sum, len. simpl. lia.
  - destruct (decide (t = t1)) as [->|Hne]; simpl; rewrite !sum_cons; [lia|].
    rewrite IH. lia.
Qed.

Lemma subscribe_run t h b w :
  event_bus.subscribe t h b w =
    (event_bus.with_subscribers
       (dict_set t (event_bus.subscribers_of b t ++ [h]) (event_bus._subscribers b)) b,
     printed ("✓ Subscribed to event: " +:+ t) w, Ok tt).
Proof. reflexivity. Qed.

Lemma subscribers_of_set t t' hs b :
  event_bus.subscribers_of
    (event_bus.with_subscribers (dict_set t hs (event_bus._subscribers b)) b) t'
  = if decide (t' = t) then hs else event_bus.subscribers_of b t'.
Proof.
  unfold event_bus.subscribers_of. simpl. rewrite dict_get_set.
  by destruct (decide (t' = t)).
Qed.

Lemma unsubscribe_run same t h b w :
  event_bus.unsubscribe same t h b w =
    if dict_in t (event_bus._subscribers b) then
      match list_remove same h (event_bus.subscribers_of b t) with
      | Some rest =>
          (event_bus.with_subscribers (dict_set t rest (event_bus._subscribers b)) b,
           printed ("✓ Unsubscribed from event: " +:+ t) w, Ok tt)
      | None => (b, printed ("⚠ Callback not found for event: " +:+ t) w, Ok tt)
      end
    else (b, w, Ok tt).
Proof.
  unfold event_bus.unsubscribe. unfold bind at 1, get_self at 1.
  destruct (dict_in t (event_bus._subscribers b)); [|done].
  unfold try_except, bind.
  by destruct (list_remove same h (event_bus.subscribers_of b t)).
Qed.

Lemma clear_all_run b w (event_type : option string) :
  (event_type = None \/ event_type = Some "") ->
  event_bus.clear_subscribers event_type b w
  = (event_bus.with_subscribers [] b, printed "✓ Cleared all subscribers" w, Ok tt).
Proof. by intros [-> | ->]. Qed.

Lemma clear_topic_run b w (t : string) :
  t <> "" ->
  event_bus.clear_subscribers (Some t) b w
  = (event_bus.with_subscribers (dict_set t [] (event_bus._subscribers b)) b,
     printed ("✓ Cleared subscribers for: " +:+ t) w, Ok tt).
Proof.
  intros Hne. unfold event_bus.clear_subscribers, bind, get_self.
  by rewrite bool_decide_false.
Qed.

(** X9.  [subscribe(t, h)] puts [h] last among the subscribers of [t],
    whether or not [h] is among them already, and leaves the subscribers of
    every other topic and the log as they are.  The count of subscribers of
    [t] and the count over all topics are one more each; a topic without
    subscribers so far becomes the last of [get_event_types()]. *)
Theorem subscribe_adds_one_subscriber (t : string) h b w :
  exists b',
    event_bus.subscribe t h b w
      = (b', printed ("✓ Subscribed to event: " +:+ t) w, Ok tt)
    /\ event_bus.subscribers_of b' t = event_bus.subscribers_of b t ++ [h]
    /\ (forall t', t' <> t ->
          event_bus.subscribers_of b' t' = event_bus.subscribers_of b t')
    /\ event_bus.get_subscriber_count b' None
       = (event_bus.get_subscriber_count b None + 1)%Z
    /\ (t <> "" ->
        event_bus.get_subscriber_count b' (Some t)
        = (event_bus.get_subscriber_count b (Some t) + 1)%Z)
    /\ event_bus.get_event_types b'
       = (if dict_in t (event_bus._subscribers b) then event_bus.get_event_types b
          else event_bus.get_event_types b ++ [t])
    /\ event_bus._event_log b' = event_bus._event_log b.
Proof.
  rewrite subscribe_run. eexists. split; [reflexivity|].
  split; [by rewrite subscribers_of_set, decide_True|].
  split; [intros t' Hne; by rewrite subscribers_of_set, decide_False|].
  split; [|split; [|split; [apply dict_set_keys | done]]].
  - unfold event_bus.get_subscriber_count. simpl.
    fold (total_subscribers
            (dict_set t (event_bus.subscribers_of b t ++ [h])
               (event_bus._subscribers b))).
    rewrite total_subscribers_set. unfold event_bus.subscribers_of, len.
    rewrite length_app. simpl. unfold total_subscribers, len. lia.
  - intros Hne. unfold event_bus.get_subscriber_count.
    rewrite !bool_decide_false by done.
    rewrite subscribers_of_set, decide_True by done.
    unfold len. rewrite length_app. simpl. lia.
Qed.

(** X10.  [unsubscribe(t, h)] never raises.  On a topic that is not a key
    of the table of subscribers it does nothing and prints nothing.  On a
    topic that is one, it removes the first subscriber equal to [h], the
    others keeping their order, and the topic stays a key of the table even
    when its list becomes empty; when no subscriber is equal to [h] it
    prints a warning and changes nothing.  The subscribers of other topics
    and the log are never touched. *)
Theorem unsubscribe_removes_first_match same (t : string) h b w :
  exists b' w',
    event_bus.unsubscribe same t h b w = (b', w', Ok tt)
    /\ event_bus._event_log b' = event_bus._event_log b
    /\ (forall t', t' <> t ->
          event_bus.subscribers_of b' t' = event_bus.subscribers_of b t')
    /\ (dict_in t (event_bus._subscribers b) = false -> b' = b /\ w' = w)
    /\ (dict_in t (event_bus._subscribers b) = true ->
        (forall h', h' ∈ event_bus.subscribers_of b t -> same h' h = false) ->
        b' = b /\ w' = printed ("⚠ Callback not found for event: " +:+ t) w)
    /\ (forall before h' after,
          dict_in t (event_bus._subscribers b) = true ->
          event_bus.subscribers_of b t = before ++ h' :: after ->
          (forall h'', h'' ∈ before -> same h'' h = false) ->
          same h' h = true ->
          event_bus.subscribers_of b' t = before ++ after
          /\ event_bus.get_event_types b' = event_bus.get_event_types b
          /\ w' = printed ("✓ Unsubscribed from event: " +:+ t) w).
Proof.
  rewrite unsubscribe_run.
  destruct (dict_in t (event_bus._subscribers b)) eqn:Hin.
  - destruct (list_remove_cases same h (event_bus.subscribers_of b t))
      as [(l1 & y & l2 & Hsubs & Hl1 & Hy)|Hnone].
    + rewrite Hsubs, (list_remove_found same h l1 l2 y Hl1 Hy).
      do 2 eexists. split; [reflexivity|]. split; [done|].
      split; [intros t' Hne; by rewrite subscribers_of_set, decide_False|].
      split; [done|]. split.
      * intros _ Hall. rewrite (Hall y) in Hy; [done|].
        apply elem_of_app. right. left.
      * intros before h' after _ Heq Hbefore Hh'.
        rewrite subscribers_of_set, decide_True by done.
        assert (Hrem : list_remove same h (l1 ++ y :: l2) = Some (before ++ after))
          by (rewrite Heq; by apply list_remove_found).
        rewrite (list_remove_found same h l1 l2 y Hl1 Hy) in Hrem.
        injection Hrem as ->. split; [done|]. split; [|done].
        unfold event_bus.get_event_types. simpl. by rewrite dict_set_keys, Hin.
    + rewrite (list_remove_absent same h _ Hnone).
      do 2 eexists. split; [reflexivity|]. split; [done|]. split; [done|].
      split; [done|]. split; [done|].
      intros before h' after _ Heq _ Hh'. rewrite (Hnone h') in Hh'; [done|].
      rewrite Heq. apply elem_of_app. right. left.
  - do 2 eexists. split; [reflexivity|]. split; [done|]. split; [done|].
    split; [done|]. split; [done|]. done.
Qed.

(** X11.  Subscribing a callback and unsubscribing it again finds it, so no
    warning is printed, and the count of subscribers is what it was.  When
    the callback was not subscribed to the topic before, the subscribers of
    the topic are the ones from before, in their order.  The topic is listed
    by [get_event_types()] afterwards even if it had no subscriber before
    and has none now. *)
Theorem subscribe_then_unsubscribe same (t : string) h b w :
  same h h = true ->
  exists b1 w1 b2,
    event_bus.subscribe t h b w = (b1, w1, Ok tt)
    /\ event_bus.unsubscribe same t h b1 w1
       = (b2, printed ("✓ Unsubscribed from event: " +:+ t) w1, Ok tt)
    /\ event_bus.get_subscriber_count b2 None = event_bus.get_subscriber_count b None
    /\ t ∈ event_bus.get_event_types b2
    /\ ((forall h', h' ∈ event_bus.subscribers_of b t -> same h' h = false) ->
        event_bus.subscribers_of b2 t = event_bus.subscribers_of b t)
    /\ (forall t', t' <> t ->
          event_bus.subscribers_of b2 t' = event_bus.subscribers_of b t').
Proof.
  intros Hrefl. rewrite subscribe_run.
  exists (event_bus.with_subscribers
            (dict_set t (event_bus.subscribers_of b t ++ [h])
               (event_bus._subscribers b)) b),
    (printed ("✓ Subscribed to event: " +:+ t) w).
  rewrite unsubscribe_run.
  cbn [event_bus._subscribers event_bus.with_subscribers].
  rewrite dict_in_set, decide_True by done.
  rewrite subscribers_of_set, decide_True by done.
  destruct (list_remove_cases same h (event_bus.subscribers_of b t ++ [h]))
    as [(l1 & y & l2 & Hsubs & Hl1 & Hy)|Hnone].
  2:{ rewrite (Hnone h) in Hrefl; [done|]. apply elem_of_app. right. left. }
  rewrite Hsubs, (list_remove_found same h l1 l2 y Hl1 Hy).
  eexists. split; [reflexivity|]. split; [reflexivity|].
  split; [|split; [|split]].
  - unfold event_bus.get_subscriber_count. simpl.
    fold (total_subscribers
            (dict_set t (l1 ++ l2)
               (dict_set t (l1 ++ y :: l2) (event_bus._subscribers b)))).
    fold (total_subscribers (event_bus._subscribers b)).
    rewrite !total_subscribers_set, dict_get_set, decide_True by done. simpl.
    apply (f_equal length) in Hsubs. rewrite !length_app in Hsubs. simpl in Hsubs.
    unfold event_bus.subscribers_of in Hsubs. unfold len. rewrite !length_app.
    simpl. lia.
  - unfold event_bus.get_event_types. simpl.
    apply elem_of_dict_set_keys. by left.
  - intros Hfresh.
    assert (Hrem : list_remove same h (event_bus.subscribers_of b t ++ [h])
                   = Some (event_bus.subscribers_of b t ++ []))
      by (by apply list_remove_found).
    rewrite Hsubs, (list_remove_found same h l1 l2 y Hl1 Hy) in Hrem.
    injection Hrem as Hrem. rewrite app_nil_r in Hrem. rewrite <- Hrem.
    unfold event_bus.subscribers_of at 1. simpl.
    by rewrite dict_get_set, decide_True.
  - intros t' Hne. unfold event_bus.subscribers_of. simpl.
    by rewrite !dict_get_set, !decide_False.
Qed.

(** X12.  [clear_subscribers(t)] for a topic leaves that topic without
    subscribers and the others as they are; the topic is listed by
    [get_event_types()] afterwards, subscribed before or not.  Without a
    topic, or with the empty one, every topic goes: no topic is listed and
    the count is 0.  A publication on a cleared topic runs nobody: it reads
    the clock for its log entry and does nothing else to the world.  The log
    is never cleared. *)
Theorem clear_subscribers_then_publish (event_type : option string) (p : Payload) b w :
  exists b' w',
    event_bus.clear_subscribers event_type b w = (b', w', Ok tt)
    /\ event_bus._event_log b' = event_bus._event_log b
    /\ (forall t, event_type = Some t -> t <> "" ->
          event_bus.subscribers_of b' t = []
          /\ t ∈ event_bus.get_event_types b'
          /\ (forall t', t' <> t ->
                event_bus.subscribers_of b' t' = event_bus.subscribers_of b t')
          /\ w' = printed ("✓ Cleared subscribers for: " +:+ t) w
          /\ (event_bus.publish t p b' w').1.2 = tick 1 w')
    /\ (event_type = None \/ event_type = Some "" ->
        event_bus.get_event_types b' = []
        /\ event_bus.get_subscriber_count b' None = 0%Z
        /\ w' = printed "✓ Cleared all subscribers" w
        /\ forall t,
             event_bus.subscribers_of b' t = []
             /\ (event_bus.publish t p b' w').1.2 = tick 1 w').
Proof.
  destruct event_type as [t|]; [destruct (decide (t = "")) as [->|Hne]|].
  - rewrite clear_all_run by auto. do 2 eexists. split; [reflexivity|].
    split; [done|]. split; [intros t0 [= <-] Hne; done|].
    intros _. split; [done|]. split; [done|]. split; [done|].
    intros t. split; [done|]. by rewrite publish_run.
  - rewrite clear_topic_run by done. do 2 eexists. split; [reflexivity|].
    split; [done|]. split; [|intros [?|[= ->]]; done].
    intros t0 [= <-] _.
    split; [by rewrite subscribers_of_set, decide_True|].
    split; [apply elem_of_dict_set_keys; by left|].
    split; [intros t' Hne'; by rewrite subscribers_of_set, decide_False|].
    split; [done|].
    rewrite publish_run. simpl.
    by rewrite subscribers_of_set, decide_True.
  - rewrite clear_all_run by auto. do 2 eexists. split; [reflexivity|].
    split; [done|]. split; [intros t [=]|].
    intros _. split; [done|]. split; [done|]. split; [done|].
    intros t. split; [done|]. by rewrite publish_run.
Qed.
End bus_subscribers.

(** ** The log of the bus and what subscribers receive *)

Section bus_log.
Context {Ext : Type}.
Implicit Types (b : event_bus.EventBus Ext) (w : World Ext) (h : Callable Ext).

Lemma get_event_log_slice b event_type (limit : Z) :
  event_bus.get_event_log b event_type limit
  = slice_from (- limit) (logged b event_type).
Proof.
  unfold event_bus.get_event_log, logged.
  destruct event_type as [t|]; [case_bool_decide|]; done.
Qed.

(** X13.  [get_event_log] returns entries of the log in the order of the
    log, all of the topic asked for when one is given.  With a positive
    limit they are the last [limit] entries selected, or all of them when
    there are fewer; with limit 0 they are all the entries selected, and
    with a negative limit [-k] all but the [k] oldest. *)
Theorem get_event_log_gives_the_latest b (event_type : option string) (limit : Z) :
  let selected := logged b event_type in
  let returned := event_bus.get_event_log b event_type limit in
  returned `sublist_of` event_bus._event_log b
  /\ (forall t entry, event_type = Some t -> t <> "" -> entry ∈ returned ->
        event_bus.event_type entry = t)
  /\ ((0 < limit)%Z ->
      returned = drop (length selected - Z.to_nat limit) selected
      /\ length returned = length selected `min` Z.to_nat limit)
  /\ ((limit <= 0)%Z -> returned = drop (Z.to_nat (- limit)) selected).
Proof.
  intros selected returned. unfold returned. rewrite get_event_log_slice.
  fold selected.
  assert (Hsel : selected `sublist_of` event_bus._event_log b).
  { unfold selected, logged. destruct event_type as [t|]; [case_bool_decide|];
      try done. apply sublist_filter. }
  assert (Hdrop : forall n, drop n selected `sublist_of` event_bus._event_log b).
  { intros n. etrans; [apply sublist_drop | exact Hsel]. }
  assert (Hslice : exists n, slice_from (- limit) selected = drop n selected).
  { unfold slice_from. destruct (_ <? _)%Z; eauto. }
  destruct Hslice as [n Hn].
  split; [rewrite Hn; apply Hdrop|]. split; [|split].
  - intros t entry -> Hne Hin. rewrite Hn in Hin.
    apply (elem_of_sublist _ selected) in Hin; [|apply sublist_drop].
    unfold selected, logged in Hin.
    rewrite bool_decide_false in Hin by done.
    by apply list_elem_of_filter in Hin as [? _].
  - intros Hpos. rewrite slice_from_neg by done. split; [done|].
    rewrite length_drop. lia.
  - apply slice_from_nonpos.
Qed.


End bus_log.

(** ** Publication that waits for the coroutines *)

Section bus_async.
Context {Ext : Type}.
Implicit Types (b : event_bus.EventBus Ext) (w : World Ext) (h : Callable Ext).

Lemma collect_run t p tasks h b w :
  event_bus.collect t p tasks h b w =
    (b, after_collect t p w h,
     Ok (if iscoroutinefunction h then tasks ++ [(h, p)] else tasks)).
Proof.
  unfold event_bus.collect, try_except, after_collect, after_handler, any_Exception.
  destruct (iscoroutinefunction h); [done|].
  unfold bind, call_sync, print, ret, printed, error_line.
  by destruct (call h p (ext w)) as [x [[]|e]].
Qed.

Lemma collect_all_run t p tasks hs b w :
  for_each_from tasks hs (event_bus.collect t p) b w =
    (b, fold_left (after_collect t p) hs w, Ok (tasks ++ coroutines_of p hs)).
Proof.
  unfold coroutines_of. revert tasks w.
  induction hs as [|h hs IH]; intros tasks w; simpl.
  - by rewrite app_nil_r.
  - erewrite bind_ok by apply collect_run. rewrite IH, filter_cons.
    destruct (iscoroutinefunction h); simpl; [by rewrite <- app_assoc | done].
Qed.

Lemma publish_async_run t p b w :
  event_bus.publish_async t p b w =
    let b1 :=
      event_bus.with_event_log
        (keep_last (event_bus._max_log_size b)
           (event_bus._event_log b ++ [publication (clock w) t p])) b in
    let w1 :=
      fold_left (after_collect t p) (event_bus.subscribers_of b t) (tick 1 w) in
    match coroutines_of p (event_bus.subscribers_of b t) with
    | [] => (b1, w1, Ok tt)
    | tasks => await_gather tasks b1 w1
    end.
Proof.
  unfold event_bus.publish_async.
  erewrite bind_ok by apply bus_log_event_run.
  unfold bind at 1, get_self at 1.
  set (b1 := event_bus.with_event_log _ b).
  change (event_bus.subscribers_of b1 t) with (event_bus.subscribers_of b t).
  erewrite bind_ok by apply collect_all_run. simpl.
  by destruct (coroutines_of p (event_bus.subscribers_of b t)).
Qed.

Lemma after_collect_sync t p hs w :
  Forall (fun h => iscoroutinefunction h = false) hs ->
  fold_left (after_collect t p) hs w = fold_left (after_handler t p) hs w.
Proof.
  intros Hsync. revert w. induction Hsync as [|h hs Hh _ IH]; intros w; [done|].
  simpl. rewrite IH. unfold after_collect. by rewrite Hh.
Qed.


(** X16.  On a topic whose subscribers are all plain functions,
    [publish_async] does what [publish] does: the same bus, the same world,
    the same normal return; there is nothing to wait for. *)
Theorem publish_async_without_coroutines (t : string) (p : Payload) b w :
  Forall (fun h => iscoroutinefunction h = false) (event_bus.subscribers_of b t) ->
  event_bus.publish_async t p b w = event_bus.publish t p b w.
Proof.
  intros Hsync. rewrite publish_async_run, publish_run. cbv zeta.
  rewrite after_collect_sync by done.
  unfold coroutines_of.
  assert (Hnone : filter iscoroutinefunction (event_bus.subscribers_of b t) = []).
  { induction Hsync as [|h hs Hh _ IH]; [done|].
    rewrite filter_cons_False; [done|]. rewrite Hh. exact id. }
  by rewrite Hnone.
Qed.

End bus_async.

(** ** Registration, routing and what an event leaves behind *)

Section orchestrator_effects.
Context {Ext : Type}.
Implicit Types (m : mcp.MasterControlProgram Ext) (w : World Ext).
Implicit Types (event : SystemEvent) (a : mcp.Agent).

(** X18.  [register_agent(agent_type, a)] makes [a] the worker of that
    identity, in the place of an earlier one if there was one, and leaves
    the workers of the other identities, the history, the store and the bus
    as they are.  From then on [a] is resolved for every event whose kind
    is routed to the identity, and events of other kinds resolve as before.
    The statistics count one more registered worker only when the identity
    had none. *)
Theorem register_then_route (agent_type : AgentType) a m w :
  exists m',
    mcp.register_agent agent_type a m w
      = (m', printed ("✓ Registered agent: " +:+ AgentType_name agent_type) w, Ok tt)
    /\ dict_get agent_type (mcp.agents m') = Some a
    /\ (forall t, t <> agent_type ->
          dict_get t (mcp.agents m') = dict_get t (mcp.agents m))
    /\ (forall event,
          agent_type ∈ routed m event ->
          a ∈ mcp._determine_relevant_agents m' event)
    /\ (forall event,
          agent_type ∉ routed m event ->
          mcp._determine_relevant_agents m' event
          = mcp._determine_relevant_agents m event)
    /\ dict_get "registered_agents" (mcp.get_system_stats m')
       = Some (VInt (if dict_in agent_type (mcp.agents m)
                     then len (mcp.agents m)
                     else len (mcp.agents m) + 1))
    /\ mcp._event_history m' = mcp._event_history m
    /\ mcp.shared_context m' = mcp.shared_context m
    /\ mcp.event_bus m' = mcp.event_bus m.
Proof.
  eexists. split; [reflexivity|]. simpl.
  split; [by rewrite dict_get_set, decide_True|].
  split; [intros t Hne; by rewrite dict_get_set, decide_False|].
  split; [|split; [|split]].
  - intros event Hrouted. apply relevant_agents_registered.
    exists agent_type. split; [done|]. simpl. by rewrite dict_get_set, decide_True.
  - intros event Hrouted. unfold mcp._determine_relevant_agents. simpl.
    apply omap_ext_elem. intros t Ht. rewrite dict_get_set, decide_False; [done|].
    intros ->. by apply Hrouted.
  - unfold len. rewrite dict_set_length.
    destruct (dict_in agent_type (mcp.agents m)); do 2 f_equal; lia.
  - done.
Qed.



(** X21.  After an orchestrator with an empty history has processed a list
    of events, resolved or not, [get_event_history] with a positive limit
    gives the last [limit] of the events of the kind asked for among the
    last 1000 processed, in the order they were processed. *)
Theorem get_event_history_after_events (events : list SystemEvent)
    (event_type : option string) (limit : Z) m w :
  mcp._event_history m = [] -> mcp._max_history_size m = 1000%Z ->
  (0 < limit)%Z ->
  let kept := drop (length events - 1000) events in
  let selected :=
    match event_type with
    | Some t =>
        if bool_decide (t = "") then kept
        else filter (fun event => type event = t) kept
    | None => kept
    end in
  exists m' w',
    process_events events m w = (m', w', Ok tt)
    /\ mcp.get_event_history m' event_type limit
       = drop (length selected - Z.to_nat limit) selected.
Proof.
  intros Hempty Hcap Hlimit kept selected.
  destruct (process_events_history events m w)
    as (m' & w' & Hrun & Hhist & _); [by rewrite Hcap|by rewrite Hempty, Hcap|].
  exists m', w'. split; [done|].
  rewrite get_event_history_positive by done.
  assert (Hkept : mcp._event_history m' = kept).
  { rewrite Hhist, Hempty, Hcap, keep_last_drop by done. done. }
  unfold matching. rewrite Hkept. done.
Qed.

(** X22.  [get_event_history] with a negative limit [-k] gives the events
    selected without the [k] oldest of them: all of them but [k], not at
    most [k]. *)
Theorem get_event_history_negative_limit (event_type : option string) (k : Z) m :
  (0 < k)%Z ->
  mcp.get_event_history m event_type (- k)
  = drop (Z.to_nat k) (matching m event_type).
Proof.
  intros Hk. unfold mcp.get_event_history, matching.
  assert (Hslice : forall l : list SystemEvent,
            slice_from (- - k) l = drop (Z.to_nat k) l).
  { intros l. rewrite slice_from_nonpos by lia. by rewrite Z.opp_involutive. }
  destruct event_type as [t|]; [case_bool_decide|]; apply Hslice.
Qed.

Lemma perform_keeps_routing (c : action) m w :
  mcp._routing_rules (perform c m w).1.1 = mcp._routing_rules m.
Proof.
  destruct c as [t a|event|t h|t p|key value|new_data|key| |json_str]; simpl;
    try done.
  - unfold bind. rewrite process_event_run.
    by destruct (mcp._determine_relevant_agents m event).
  - unfold on_attr. by destruct (event_bus.publish t p (mcp.event_bus m) w) as [[] ?].
  - unfold on_attr.
    by destruct (shared_context.set key value (mcp.shared_context m) w) as [[] ?].
  - unfold on_attr.
    by destruct (shared_context.update new_data (mcp.shared_context m) w) as [[] ?].
  - unfold on_attr.
    by destruct (bind (shared_context.delete key) _ (mcp.shared_context m) w)
      as [[] ?].
  - unfold on_attr.
    by destruct (shared_context.clear (mcp.shared_context m) w) as [[] ?].
  - unfold on_attr.
    by destruct (shared_context.import_from_json json_str (mcp.shared_context m) w)
      as [[] ?].
Qed.

Lemma routing_after_calls (calls : list action) m w :
  mcp._routing_rules (for_each calls perform m w).1.1 = mcp._routing_rules m.
Proof.
  revert m w. induction calls as [|c calls IH]; intros m w; [done|].
  simpl. unfold bind. pose proof (perform_keeps_routing c m w) as Hstep.
  destruct (perform c m w) as [[m1 w1] [[]|e]]; simpl in *; [|done].
  by rewrite IH.
Qed.

(** X23.  No call on an orchestrator, its bus or its store changes the
    routing table: after any sequence of calls on a new orchestrator the
    table is the one set at construction, the statistics list its seven
    kinds, at most two workers are resolved for an event, and an event of a
    kind outside the table gets the [no_agents] outcome whoever is
    registered. *)
Theorem routing_table_is_fixed (calls : list action) w0 event w :
  let m := (for_each calls perform mcp.new w0).1.1 in
  mcp._routing_rules m = mcp._initialize_routing_rules
  /\ dict_get "event_types" (mcp.get_system_stats m)
     = Some (VList (map VStr (dict_keys mcp._initialize_routing_rules)))
  /\ (length (mcp._determine_relevant_agents m event) <= 2)%nat
  /\ (type event ∉ dict_keys mcp._initialize_routing_rules ->
      (mcp.process_event event m w).2 = Ok (no_agents_outcome event)).
Proof.
  intros m. assert (Hrules : mcp._routing_rules m = mcp._initialize_routing_rules)
    by apply routing_after_calls.
  split; [done|]. split; [simpl; by rewrite Hrules|]. split.
  - unfold mcp._determine_relevant_agents. rewrite Hrules.
    etrans; [apply omap_length_le|].
    unfold mcp._initialize_routing_rules. simpl.
    repeat (case_decide; [simpl; lia|]). simpl. lia.
  - intros Hkind. rewrite process_event_run.
    rewrite unrouted_kind_resolves_to_nobody; [done|].
    rewrite Hrules. by apply dict_get_None.
Qed.
End orchestrator_effects.

(** ** Concrete runs of the further properties *)

(** X2 at a store of two keys, the first of which is deleted. *)
Lemma delete_then_read_witness :
  NoDup (shared_context.keys small_store)
  /\ exists c' w',
      shared_context.delete "k" small_store quiet = (c', w', Ok true)
      /\ shared_context.has c' "k" = false.
Proof.
  assert (Hkeys : NoDup (shared_context.keys small_store))
    by (apply (bool_decide_unpack _); reflexivity).
  split; [exact Hkeys|].
  destruct (delete_then_read "k" small_store quiet Hkeys)
    as (c' & w' & Hrun & Hhas & _).
  exists c', w'. split; [exact Hrun | exact Hhas].
Defined.

(** X3 at a merge that overwrites one key and adds another. *)
Lemma update_then_read_witness :
  NoDup (dict_keys [("k", VInt 2); ("j", VInt 3)])
  /\ exists c',
      (shared_context.update [("k", VInt 2); ("j", VInt 3)] small_store quiet).1.1 = c'
      /\ shared_context.get c' "k" VNone = VInt 2
      /\ shared_context.get c' "j" VNone = VInt 3
      /\ shared_context.get c' "none" (VInt 0) = VNone.
Proof.
  assert (Hkeys : NoDup (dict_keys [("k", VInt 2); ("j", VInt 3)]))
    by (apply (bool_decide_unpack _); reflexivity).
  split; [exact Hkeys|].
  destruct (update_then_read [("k", VInt 2); ("j", VInt 3)] small_store quiet Hkeys)
    as (c' & added_keys & updated_keys & Hrun & Hget & _).
  exists c'. split; [by rewrite Hrun|].
  split; [exact (Hget "k" VNone)|]. split; [exact (Hget "j" VNone)|].
  exact (Hget "none" (VInt 0)).
Defined.

(** X8 at the text [null]. *)
Lemma import_of_a_non_object_raises_witness :
  (forall members, json.JNull <> json.JObject members)
  /\ exists e,
      (shared_context.import_from_json (json.Document json.JNull) small_store quiet).2
      = Raise e
      /\ is_JSONDecodeError e = false.
Proof.
  assert (Hnull : forall members, json.JNull <> json.JObject members)
    by (intros members; discriminate).
  split; [exact Hnull|].
  destruct (import_of_a_non_object_raises json.JNull small_store quiet Hnull)
    as (e & Hrun & Hclass & _).
  exists e. split; [exact Hrun | exact Hclass].
Defined.

(** X11 at a fourth subscriber of the topic of [three_subscribers]. *)
Lemma subscribe_then_unsubscribe_witness :
  same_note (noting "fourth" false) (noting "fourth" false) = true
  /\ exists b1 w1 b2,
      event_bus.subscribe "topic" (noting "fourth" false) three_subscribers
        (mkWorld [] None [] 0)
      = (b1, w1, Ok tt)
      /\ event_bus.unsubscribe same_note "topic" (noting "fourth" false) b1 w1
         = (b2, printed "✓ Unsubscribed from event: topic" w1, Ok tt)
      /\ event_bus.get_subscriber_count b2 None = 3%Z.
Proof.
  split; [reflexivity|].
  destruct (subscribe_then_unsubscribe same_note "topic" (noting "fourth" false)
              three_subscribers (mkWorld [] None [] 0) eq_refl)
    as (b1 & w1 & b2 & Hsub & Hunsub & Hcount & _).
  exists b1, w1, b2. split; [exact Hsub|]. split; [exact Hunsub|exact Hcount].
Defined.


(** X16 at the bus of [three_subscribers], all of them plain functions. *)
Lemma publish_async_without_coroutines_witness :
  Forall (fun h => iscoroutinefunction h = false)
    (event_bus.subscribers_of three_subscribers "topic")
  /\ event_bus.publish_async "topic" (PValue VNone) three_subscribers
       (mkWorld [] None [] 0)
     = event_bus.publish "topic" (PValue VNone) three_subscribers
         (mkWorld [] None [] 0).
Proof.
  assert (Hsync :
    Forall (fun h : Callable (list string) => iscoroutinefunction h = false)
      (event_bus.subscribers_of three_subscribers "topic")).
  { change (event_bus.subscribers_of three_subscribers "topic")
      with [noting "first" false; noting "second" true; noting "third" false].
    repeat constructor. }
  split; [exact Hsync|].
  exact (publish_async_without_coroutines "topic" (PValue VNone) three_subscribers
           (mkWorld [] None [] 0) Hsync).
Defined.



(** X21 at three events on a new orchestrator without workers, asked for
    the last event of one kind. *)
Lemma get_event_history_after_events_witness :
  (mcp._event_history (registered []) = []
   /\ mcp._max_history_size (registered []) = 1000%Z /\ (0 < 1)%Z)
  /\ exists m' w',
      process_events [email; query; query] (registered []) quiet = (m', w', Ok tt)
      /\ mcp.get_event_history m' (Some "email_received") 1 = [email]
      /\ mcp.get_event_history m' None 1 = [query].
Proof.
  split; [by repeat split|].
  destruct (get_event_history_after_events [email; query; query]
              (Some "email_received") 1 (registered []) quiet
              eq_refl eq_refl eq_refl)
    as (m' & w' & Hrun & Hlast).
  exists m', w'. split; [exact Hrun|]. split; [exact Hlast|].
  injection Hrun as <- _. reflexivity.
Defined.

(** X22 at a history of three events and limit -1: two events are
    returned, the newer ones. *)
Lemma get_event_history_negative_limit_witness :
  (0 < 1)%Z
  /\ mcp.get_event_history
       (mcp.with_event_history [query; email; query] (registered [])) None (- 1)
     = [email; query].
Proof.
  split; [reflexivity|].
  exact (get_event_history_negative_limit None 1
           (mcp.with_event_history [query; email; query] (registered [])) eq_refl).
Defined.
